(** * python-desfire: the PC/SC command transceiver and the file-settings codec

    A shallow embedding of [desfire/devices/pcsc.py] (PCSCDevice.transceive)
    and [desfire/schemas/file_settings.py] (FileSettings.parse), with the
    properties of the protocol-framing layer stated and proved over it.

    Python lists of ints are [list Z]; a raised exception is the [Raise]
    branch of [result]; the attributes of [self] are a record threaded
    through a small state-and-exception monad. *)

From Stdlib Require Import ZArith Lia Bool String Ascii DecimalString.
From stdpp Require Import base list.

Open Scope Z_scope.

(** ** Python exceptions *)

(** The two enum classes the codec calls with a raw byte. *)
Inductive enum_class := cls_DESFireFileType | cls_DESFireCommunicationMode.

(** The three messages [transceive] puts in a [CardConnectionException]. *)
Inductive cce_message :=
| Failed_to_transmit (pcscprotocolheader : Z) (error_message : string)
| Invalid_response_length (len : Z)
| Unexpected_SW1 (sw1 : Z).

Inductive exn :=
| IndexError
| ValueError_not_a_valid (cls : enum_class) (value : Z)
| ValueError_bytes_range
| struct_error
| NotImplementedError_Filetype (data0 : Z)
| DESFireException_non_open
| CardConnectionException (msg : cce_message)
| ForeignError (what : string).

Inductive result (A : Type) :=
| Ok (a : A)
| Raise (e : exn).
Arguments Ok {A} a.
Arguments Raise {A} e.

Definition raised {A} (r : result A) : bool :=
  match r with Ok _ => false | Raise _ => true end.

(** ** Python list primitives *)

(** [l[i]] for a constant [i >= 0]. *)
Definition getitem (l : list Z) (i : nat) : result Z :=
  match l !! i with
  | Some x => Ok x
  | None => Raise IndexError
  end.

(** [l[-k]] for a constant [k >= 1]. *)
Definition getitem_from_end (l : list Z) (k : nat) : result Z :=
  if (k <=? length l)%nat then getitem l (length l - k) else Raise IndexError.

(** [l[i:j]] for constants [0 <= i <= j]; slices never raise. *)
Definition slice (l : list Z) (i j : nat) : list Z := take (j - i) (drop i l).

(** [l[:-k]] for a constant [k >= 1]. *)
Definition slice_to_end_minus (l : list Z) (k : nat) : list Z :=
  take (length l - k) l.

Definition len (l : list Z) : Z := Z.of_nat (length l).

(** ** The PC/SC device: [PCSCDevice.transceive] *)

(** What [transceive] reads of [self.card_connection]: the handle [hcard]
    ([None] until connected) and the negotiated protocol. *)
Record CardConnection := {
  hcard : option Z;
  getProtocol : Z
}.

(** Truth value of [self.card_connection.hcard]. *)
Definition hcard_truthy (c : CardConnection) : option Z :=
  match hcard c with
  | Some h => if h =? 0 then None else Some h
  | None => None
  end.

(** One call of [SCardTransmit(hcard, pcscprotocolheader, apdu)]. *)
Record transmit_call := {
  call_hcard : Z;
  call_header : Z;
  call_apdu : list Z
}.

(** Line 47: the APDU wrapped around the native command [bytes]. *)
Definition build_apdu (bytes : list Z) : result (list Z) :=
  match getitem bytes 0 with
  | Raise e => Raise e
  | Ok ins =>
      Ok ([0x90; ins; 0x00; 0x00; len (drop 1 bytes)]
            ++ drop 1 bytes
            ++ (if 0 <? len (drop 1 bytes) then [0x00] else []))
  end.

(** Lines 55-63: SW1 is checked and removed, SW2 moves to the front. *)
Definition unwrap_response (response : list Z) : result (list Z) :=
  if len response <? 2 then
    Raise (CardConnectionException (Invalid_response_length (len response)))
  else
    match getitem_from_end response 2 with
    | Raise e => Raise e
    | Ok sw1 =>
        if negb (sw1 =? 0x91) then
          Raise (CardConnectionException (Unexpected_SW1 sw1))
        else
          match getitem_from_end response 1 with
          | Raise e => Raise e
          | Ok sw2 => Ok ([sw2] ++ slice_to_end_minus response 2)
          end
    end.

Section Transceive.

(** pyscard, the reader driver: outside the repository. *)
Variable translateprotocolheader : Z -> Z.
Variable SCardTransmit : Z -> Z -> list Z -> Z * list Z.
Variable SCardGetErrorMessage : Z -> string.

(** [transceive] returns the calls it made to [SCardTransmit], in order,
    and either the native response or the exception it raised. *)
Definition transceive (self : CardConnection) (bytes : list Z)
  : list transmit_call * result (list Z) :=
  match hcard_truthy self with
  | None => ([], Raise DESFireException_non_open)
  | Some h =>
      let protocol := getProtocol self in
      let pcscprotocolheader := translateprotocolheader protocol in
      match build_apdu bytes with
      | Raise e => ([], Raise e)
      | Ok apdu =>
          let '(hresult, response) := SCardTransmit h pcscprotocolheader apdu in
          let calls := [ {| call_hcard := h;
                            call_header := pcscprotocolheader;
                            call_apdu := apdu |} ] in
          if negb (hresult =? 0) then
            (calls, Raise (CardConnectionException
                             (Failed_to_transmit pcscprotocolheader
                                (SCardGetErrorMessage hresult))))
          else (calls, unwrap_response response)
      end
  end.

End Transceive.

(** ** Enumerations *)

(** Modelled from the spec: [desfire/enums.py] is not among the sources.
    [parse] names five members of [DESFireFileType]; the spec lists a sixth,
    the transaction-MAC file, which the codec recognises and does not decode. *)
Inductive DESFireFileType :=
| MDFT_STANDARD_DATA_FILE
| MDFT_BACKUP_DATA_FILE
| MDFT_VALUE_FILE_WITH_BACKUP
| MDFT_LINEAR_RECORD_FILE_WITH_BACKUP
| MDFT_CYCLIC_RECORD_FILE_WITH_BACKUP
| MDFT_TRANSACTION_MAC_FILE.

(** Modelled from the spec: the communication modes are Plain, MAC and
    Encrypted. *)
Inductive DESFireCommunicationMode :=
| PLAIN
| MAC
| ENCRYPTED.

Definition DESFireFileType_members : list DESFireFileType :=
  [ MDFT_STANDARD_DATA_FILE; MDFT_BACKUP_DATA_FILE; MDFT_VALUE_FILE_WITH_BACKUP;
    MDFT_LINEAR_RECORD_FILE_WITH_BACKUP; MDFT_CYCLIC_RECORD_FILE_WITH_BACKUP;
    MDFT_TRANSACTION_MAC_FILE ].

Definition DESFireCommunicationMode_members : list DESFireCommunicationMode :=
  [ PLAIN; MAC; ENCRYPTED ].

Section Enum.

Context {E : Type}.
Variable cls : enum_class.
Variable members : list E.
(** The [.value] of each member, as the class body assigns it. *)
Variable value : E -> Z.

(** [cls(v)]: the first member declared with value [v], or [ValueError]. *)
Definition Enum_call (v : Z) : result E :=
  match List.find (fun m => value m =? v) members with
  | Some m => Ok m
  | None => Raise (ValueError_not_a_valid cls v)
  end.

(** [a == b] on members: members of equal value are one object. *)
Definition Enum_eq (a b : E) : bool := value a =? value b.

End Enum.

(** ** [struct] and [bytes] *)

(** [bytes(l)] for a list of ints. *)
Definition to_bytes (l : list Z) : result (list Z) :=
  if forallb (fun x => (0 <=? x) && (x <? 256)) l then Ok l
  else Raise ValueError_bytes_range.

(** The little-endian unsigned value of a byte string. *)
Definition le_uint (b : list Z) : Z := foldr (fun x acc => x + 256 * acc) 0 b.

(** [struct.unpack("<I", b)[0]]. *)
Definition unpack_le_I (b : list Z) : result Z :=
  if (length b =? 4)%nat then Ok (le_uint b) else Raise struct_error.

(** [struct.unpack("<I", bytes(l))[0]]. *)
Definition struct_unpack_I (l : list Z) : result Z :=
  match to_bytes l with
  | Ok b => unpack_le_I b
  | Raise e => Raise e
  end.

(** [bool(x)] for an int. *)
Definition truthy (x : Z) : bool := negb (x =? 0).

(** ** File settings: [FileSettings.parse] *)

Section FileSettings.

(** The [.value] tables of the two enum classes. *)
Variable file_type_value : DESFireFileType -> Z.
Variable communication_mode_value : DESFireCommunicationMode -> Z.

(** [desfire/schemas/file_permissions.py] is not among the sources: the
    class is taken as its constructor and its in-place [parse]. *)
Variable FilePermissions : Type.
Variable FilePermissions_init : FilePermissions.
Variable FilePermissions_parse :
  FilePermissions -> list Z -> FilePermissions * result unit.

Definition DESFireFileType_call : Z -> result DESFireFileType :=
  Enum_call cls_DESFireFileType DESFireFileType_members file_type_value.

Definition DESFireCommunicationMode_call : Z -> result DESFireCommunicationMode :=
  Enum_call cls_DESFireCommunicationMode DESFireCommunicationMode_members
    communication_mode_value.

(** The attributes of a [FileSettings] object. *)
Record FileSettings := {
  encryption : option DESFireCommunicationMode;
  file_type : option DESFireFileType;
  permissions : option FilePermissions;
  file_size : Z;
  lower_limit : Z;
  upper_limit : Z;
  value : Z;
  limited_credit_value : Z;
  limited_credit_enabled : bool;
  record_count : Z;
  max_record_count : Z
}.

(** [FileSettings()] with the default arguments of [__init__]. *)
Definition FileSettings_init : FileSettings :=
  {| encryption := None; file_type := None; permissions := None;
     file_size := 0; lower_limit := 0; upper_limit := 0; value := 0;
     limited_credit_value := 0; limited_credit_enabled := false;
     record_count := 0; max_record_count := 0 |}.

(** Statements of a method: they read and write [self] and may raise. *)
Definition M (A : Type) : Type := FileSettings -> FileSettings * result A.

Definition ret {A} (a : A) : M A := fun self => (self, Ok a).

Definition bind {A B} (m : M A) (k : A -> M B) : M B :=
  fun self =>
    match m self with
    | (self', Ok a) => k a self'
    | (self', Raise e) => (self', Raise e)
    end.

Definition lift {A} (r : result A) : M A := fun self => (self, r).

Definition assign (f : FileSettings -> FileSettings) : M unit :=
  fun self => (f self, Ok tt).

Definition set_file_type (v : DESFireFileType) (s : FileSettings) :=
  {| encryption := encryption s; file_type := Some v; permissions := permissions s;
     file_size := file_size s; lower_limit := lower_limit s;
     upper_limit := upper_limit s; value := value s;
     limited_credit_value := limited_credit_value s;
     limited_credit_enabled := limited_credit_enabled s;
     record_count := record_count s; max_record_count := max_record_count s |}.

Definition set_encryption (v : DESFireCommunicationMode) (s : FileSettings) :=
  {| encryption := Some v; file_type := file_type s; permissions := permissions s;
     file_size := file_size s; lower_limit := lower_limit s;
     upper_limit := upper_limit s; value := value s;
     limited_credit_value := limited_credit_value s;
     limited_credit_enabled := limited_credit_enabled s;
     record_count := record_count s; max_record_count := max_record_count s |}.

Definition set_permissions (v : FilePermissions) (s : FileSettings) :=
  {| encryption := encryption s; file_type := file_type s; permissions := Some v;
     file_size := file_size s; lower_limit := lower_limit s;
     upper_limit := upper_limit s; value := value s;
     limited_credit_value := limited_credit_value s;
     limited_credit_enabled := limited_credit_enabled s;
     record_count := record_count s; max_record_count := max_record_count s |}.

Definition set_file_size (v : Z) (s : FileSettings) :=
  {| encryption := encryption s; file_type := file_type s;
     permissions := permissions s;
     file_size := v; lower_limit := lower_limit s;
     upper_limit := upper_limit s; value := value s;
     limited_credit_value := limited_credit_value s;
     limited_credit_enabled := limited_credit_enabled s;
     record_count := record_count s; max_record_count := max_record_count s |}.

Definition set_lower_limit (v : Z) (s : FileSettings) :=
  {| encryption := encryption s; file_type := file_type s;
     permissions := permissions s;
     file_size := file_size s; lower_limit := v;
     upper_limit := upper_limit s; value := value s;
     limited_credit_value := limited_credit_value s;
     limited_credit_enabled := limited_credit_enabled s;
     record_count := record_count s; max_record_count := max_record_count s |}.

Definition set_upper_limit (v : Z) (s : FileSettings) :=
  {| encryption := encryption s; file_type := file_type s;
     permissions := permissions s;
     file_size := file_size s; lower_limit := lower_limit s;
     upper_limit := v; value := value s;
     limited_credit_value := limited_credit_value s;
     limited_credit_enabled := limited_credit_enabled s;
     record_count := record_count s; max_record_count := max_record_count s |}.

Definition set_limited_credit_value (v : Z) (s : FileSettings) :=
  {| encryption := encryption s; file_type := file_type s;
     permissions := permissions s;
     file_size := file_size s; lower_limit := lower_limit s;
     upper_limit := upper_limit s; value := value s;
     limited_credit_value := v;
     limited_credit_enabled := limited_credit_enabled s;
     record_count := record_count s; max_record_count := max_record_count s |}.

Definition set_limited_credit_enabled (v : bool) (s : FileSettings) :=
  {| encryption := encryption s; file_type := file_type s;
     permissions := permissions s;
     file_size := file_size s; lower_limit := lower_limit s;
     upper_limit := upper_limit s; value := value s;
     limited_credit_value := limited_credit_value s;
     limited_credit_enabled := v;
     record_count := record_count s; max_record_count := max_record_count s |}.

Definition set_record_count (v : Z) (s : FileSettings) :=
  {| encryption := encryption s; file_type := file_type s;
     permissions := permissions s;
     file_size := file_size s; lower_limit := lower_limit s;
     upper_limit := upper_limit s; value := value s;
     limited_credit_value := limited_credit_value s;
     limited_credit_enabled := limited_credit_enabled s;
     record_count := v; max_record_count := max_record_count s |}.

Definition set_max_record_count (v : Z) (s : FileSettings) :=
  {| encryption := encryption s; file_type := file_type s;
     permissions := permissions s;
     file_size := file_size s; lower_limit := lower_limit s;
     upper_limit := upper_limit s; value := value s;
     limited_credit_value := limited_credit_value s;
     limited_credit_enabled := limited_credit_enabled s;
     record_count := record_count s; max_record_count := v |}.

(** [self.file_type == m]. *)
Definition file_type_is (m : DESFireFileType) : M bool :=
  fun self =>
    (self, Ok match file_type self with
              | Some ft => Enum_eq file_type_value ft m
              | None => false
              end).

(** [self.permissions.parse(d)]: the object held by [self] is updated in
    place, whether or not the call raises. *)
Definition permissions_parse (d : list Z) : M unit :=
  fun self =>
    match permissions self with
    | Some p =>
        let '(p', r) := FilePermissions_parse p d in (set_permissions p' self, r)
    | None => (self, Raise (ForeignError "AttributeError"))
    end.

(** The object once lines 82-85 have run. *)
Definition header_state (ft : DESFireFileType) (cm : DESFireCommunicationMode)
    (p : FilePermissions) (s : FileSettings) : FileSettings :=
  set_permissions p (set_encryption cm (set_file_type ft s)).

Notation "x <- c1 ;; c2" := (bind c1 (fun x => c2))
  (at level 100, c1 at next level, right associativity).
Notation "c1 ;;; c2" := (bind c1 (fun _ => c2))
  (at level 100, right associativity).

(** Lines 82-101. *)
Definition parse (data : list Z) : M unit :=
  d0 <- lift (getitem data 0) ;;
  ft <- lift (DESFireFileType_call d0) ;;
  assign (set_file_type ft) ;;;
  d1 <- lift (getitem data 1) ;;
  cm <- lift (DESFireCommunicationMode_call d1) ;;
  assign (set_encryption cm) ;;;
  assign (set_permissions FilePermissions_init) ;;;
  permissions_parse (slice data 2 4) ;;;
  is_standard <- file_type_is MDFT_STANDARD_DATA_FILE ;;
  is_backup <- file_type_is MDFT_BACKUP_DATA_FILE ;;
  if is_standard || is_backup then
    n <- lift (struct_unpack_I (slice data 4 7 ++ [0x00])) ;;
    assign (set_file_size n)
  else
    is_value <- file_type_is MDFT_VALUE_FILE_WITH_BACKUP ;;
    if is_value then
      lo <- lift (struct_unpack_I (slice data 4 8)) ;;
      assign (set_lower_limit lo) ;;;
      hi <- lift (struct_unpack_I (slice data 8 12)) ;;
      assign (set_upper_limit hi) ;;;
      lc <- lift (struct_unpack_I (slice data 12 16)) ;;
      assign (set_limited_credit_value lc) ;;;
      d16 <- lift (getitem data 16) ;;
      assign (set_limited_credit_enabled (truthy d16))
    else
      is_cyclic <- file_type_is MDFT_CYCLIC_RECORD_FILE_WITH_BACKUP ;;
      is_linear <- file_type_is MDFT_LINEAR_RECORD_FILE_WITH_BACKUP ;;
      if is_cyclic || is_linear then
        n <- lift (struct_unpack_I (slice data 4 7 ++ [0x00])) ;;
        assign (set_file_size n) ;;;
        m <- lift (struct_unpack_I (slice data 7 10 ++ [0x00])) ;;
        assign (set_max_record_count m) ;;;
        c <- lift (struct_unpack_I (slice data 10 13 ++ [0x00])) ;;
        assign (set_record_count c)
      else
        d0' <- lift (getitem data 0) ;;
        lift (Raise (NotImplementedError_Filetype d0')).

End FileSettings.

Arguments encryption {FilePermissions} _.
Arguments file_type {FilePermissions} _.
Arguments permissions {FilePermissions} _.
Arguments file_size {FilePermissions} _.
Arguments lower_limit {FilePermissions} _.
Arguments upper_limit {FilePermissions} _.
Arguments value {FilePermissions} _.
Arguments limited_credit_value {FilePermissions} _.
Arguments limited_credit_enabled {FilePermissions} _.
Arguments record_count {FilePermissions} _.
Arguments max_record_count {FilePermissions} _.
Arguments FileSettings_init {FilePermissions}.
Arguments set_file_type {FilePermissions} v s.
Arguments set_encryption {FilePermissions} v s.
Arguments set_permissions {FilePermissions} v s.
Arguments set_file_size {FilePermissions} v s.
Arguments set_lower_limit {FilePermissions} v s.
Arguments set_upper_limit {FilePermissions} v s.
Arguments set_limited_credit_value {FilePermissions} v s.
Arguments set_limited_credit_enabled {FilePermissions} v s.
Arguments set_record_count {FilePermissions} v s.
Arguments set_max_record_count {FilePermissions} v s.
Arguments header_state {FilePermissions} ft cm p s.

(** The shortest buffer each decoded variant reads in full. *)
Definition required_length (ft : DESFireFileType) : option nat :=
  match ft with
  | MDFT_STANDARD_DATA_FILE | MDFT_BACKUP_DATA_FILE => Some 7%nat
  | MDFT_VALUE_FILE_WITH_BACKUP => Some 17%nat
  | MDFT_LINEAR_RECORD_FILE_WITH_BACKUP
  | MDFT_CYCLIC_RECORD_FILE_WITH_BACKUP => Some 13%nat
  | MDFT_TRANSACTION_MAC_FILE => None
  end.

(** The five members [parse] decodes. *)
Definition supported_file_types : list DESFireFileType :=
  [ MDFT_STANDARD_DATA_FILE; MDFT_BACKUP_DATA_FILE; MDFT_VALUE_FILE_WITH_BACKUP;
    MDFT_LINEAR_RECORD_FILE_WITH_BACKUP; MDFT_CYCLIC_RECORD_FILE_WITH_BACKUP ].

Definition is_byte (x : Z) : Prop := 0 <= x < 256.

(** The buffer read by offset: the byte at offset [i], and the unsigned
    little-endian integers of three and four bytes starting there. *)
Definition byte_at (data : list Z) (i : nat) : Z := nth i data 0.

Definition le24_at (data : list Z) (i : nat) : Z :=
  byte_at data i + 256 * byte_at data (S i) + 65536 * byte_at data (S (S i)).

Definition le32_at (data : list Z) (i : nat) : Z :=
  le24_at data i + 16777216 * byte_at data (S (S (S i))).

(** The exception that reports a response too short to parse: the length
    check of [transceive] raises it; nothing else in the sources does. *)
Definition is_length_check_error (e : exn) : bool :=
  match e with
  | CardConnectionException (Invalid_response_length _) => true
  | _ => false
  end.

(** ** A card profile to run the codec on *)

Module Profile.

(** Modelled from the spec: the values of [desfire/enums.py], which is not
    among the sources. The spec's example fixes 0x00 for the standard data
    file and 0x03 as a communication mode; the remaining values are those
    of the DESFire command set. *)
Definition file_type_value (ft : DESFireFileType) : Z :=
  match ft with
  | MDFT_STANDARD_DATA_FILE => 0x00
  | MDFT_BACKUP_DATA_FILE => 0x01
  | MDFT_VALUE_FILE_WITH_BACKUP => 0x02
  | MDFT_LINEAR_RECORD_FILE_WITH_BACKUP => 0x03
  | MDFT_CYCLIC_RECORD_FILE_WITH_BACKUP => 0x04
  | MDFT_TRANSACTION_MAC_FILE => 0x05
  end.

Definition communication_mode_value (cm : DESFireCommunicationMode) : Z :=
  match cm with
  | PLAIN => 0x00
  | MAC => 0x01
  | ENCRYPTED => 0x03
  end.

(** Modelled from the spec: [desfire/schemas/file_permissions.py] is not
    among the sources. Four 4-bit key numbers packed in two bytes: bits 0-3
    the change key, 4-7 the read-write key, 8-11 the write key, 12-15 the
    read key, the first byte holding bits 0-7. The spec defines the codec
    on two bytes; on a shorter slice the byte access raises. *)
Record FilePermissions := {
  change_access : Z;
  read_write_access : Z;
  write_access : Z;
  read_access : Z
}.

Definition FilePermissions_init : FilePermissions :=
  {| change_access := 0; read_write_access := 0;
     write_access := 0; read_access := 0 |}.

Definition FilePermissions_parse (self : FilePermissions) (data : list Z)
  : FilePermissions * result unit :=
  match getitem data 0, getitem data 1 with
  | Ok lo, Ok hi =>
      ({| change_access := Z.land lo 0x0F;
          read_write_access := Z.land (Z.shiftr lo 4) 0x0F;
          write_access := Z.land hi 0x0F;
          read_access := Z.land (Z.shiftr hi 4) 0x0F |}, Ok tt)
  | Raise e, _ | _, Raise e => (self, Raise e)
  end.

(** [FileSettings().parse(data)] on this profile. *)
Definition decode (data : list Z) : FileSettings FilePermissions * result unit :=
  parse file_type_value communication_mode_value
    FilePermissions FilePermissions_init FilePermissions_parse
    data FileSettings_init.

(** A reader whose card answers every frame with [response], and a
    connection opened on it. *)
Definition translateprotocolheader (protocol : Z) : Z := protocol.
Definition answering (response : list Z) (h hdr : Z) (apdu : list Z)
  : Z * list Z := (0, response).
Definition SCardGetErrorMessage (hresult : Z) : string := "error"%string.
Definition connection : CardConnection := {| hcard := Some 1; getProtocol := 2 |}.

Definition exchange (response command : list Z)
  : list transmit_call * result (list Z) :=
  transceive translateprotocolheader (answering response) SCardGetErrorMessage
    connection command.

End Profile.

(** The layout [parse] reads after the common header, as the chain of
    comparisons on [self.file_type] selects it. *)
Inductive layout := DataFile | ValueFile | RecordFile | Undecoded.

Definition layout_of (ft : DESFireFileType) : layout :=
  match ft with
  | MDFT_STANDARD_DATA_FILE | MDFT_BACKUP_DATA_FILE => DataFile
  | MDFT_VALUE_FILE_WITH_BACKUP => ValueFile
  | MDFT_LINEAR_RECORD_FILE_WITH_BACKUP
  | MDFT_CYCLIC_RECORD_FILE_WITH_BACKUP => RecordFile
  | MDFT_TRANSACTION_MAC_FILE => Undecoded
  end.

Definition dispatch (file_type_value : DESFireFileType -> Z)
    (ft : DESFireFileType) : layout :=
  if Enum_eq file_type_value ft MDFT_STANDARD_DATA_FILE
     || Enum_eq file_type_value ft MDFT_BACKUP_DATA_FILE then DataFile
  else if Enum_eq file_type_value ft MDFT_VALUE_FILE_WITH_BACKUP then ValueFile
  else if Enum_eq file_type_value ft MDFT_CYCLIC_RECORD_FILE_WITH_BACKUP
          || Enum_eq file_type_value ft MDFT_LINEAR_RECORD_FILE_WITH_BACKUP
       then RecordFile
  else Undecoded.

(** ** Printing: [FileSettings.__init__] and [FileSettings.__repr__] *)

(** ["\r\n"], which ends every line of [__repr__]. *)
Definition CRLF : string :=
  String (ascii_of_nat 13) (String (ascii_of_nat 10) EmptyString).

(** [f"{n}"] for an int and for a bool. *)
Definition str_int (n : Z) : string := NilZero.string_of_int (Z.to_int n).

Definition str_bool (b : bool) : string :=
  if b then "True"%string else "False"%string.

(** [o.name] for an attribute that holds an enum member or [None]. *)
Definition name_of {E : Type} (name : E -> string) (o : option E) : result string :=
  match o with
  | Some m => Ok (name m)
  | None => Raise (ForeignError "AttributeError")
  end.

Section Repr.

Variable file_type_value : DESFireFileType -> Z.
(** The [.name] of each member: the identifiers of [desfire/enums.py]. *)
Variable file_type_name : DESFireFileType -> string.
Variable communication_mode_name : DESFireCommunicationMode -> string.
Variable FilePermissions : Type.
(** [FilePermissions.__repr__], from [desfire/schemas/file_permissions.py]. *)
Variable FilePermissions_repr : FilePermissions -> result string.

(** Lines 8-55: [FileSettings(encryption, file_type, permissions, ...)]. *)
Definition FileSettings_new
    (encryption : option DESFireCommunicationMode)
    (file_type : option DESFireFileType)
    (permissions : option FilePermissions)
    (file_size lower_limit upper_limit value limited_credit_value : Z)
    (limited_credit_enabled : bool)
    (record_count max_record_count : Z) : FileSettings FilePermissions :=
  {| encryption := encryption; file_type := file_type;
     permissions := permissions; file_size := file_size;
     lower_limit := lower_limit; upper_limit := upper_limit; value := value;
     limited_credit_value := limited_credit_value;
     limited_credit_enabled := limited_credit_enabled;
     record_count := record_count; max_record_count := max_record_count |}.

(** [repr(self.permissions)]; [repr(None)] is ["None"]. *)
Definition repr_permissions (o : option FilePermissions) : result string :=
  match o with
  | Some p => FilePermissions_repr p
  | None => Ok "None"%string
  end.

(** [self.file_type == m] in [__repr__]. *)
Definition file_type_eq (self : FileSettings FilePermissions)
    (m : DESFireFileType) : bool :=
  match file_type self with
  | Some ft => Enum_eq file_type_value ft m
  | None => false
  end.

(** One line of the output: [f"{label}{text}\r\n"]. *)
Definition line (label text : string) : string :=
  append label (append text CRLF).

(** Lines 103-124. *)
Definition FileSettings_repr (self : FileSettings FilePermissions)
  : result string :=
  let temp := append " ----- FileSettings ----" CRLF in
  match name_of file_type_name (file_type self) with
  | Raise e => Raise e
  | Ok ft_name =>
    let temp := append temp (line "File type: " ft_name) in
    match name_of communication_mode_name (encryption self) with
    | Raise e => Raise e
    | Ok cm_name =>
      let temp := append temp (line "Encryption: " cm_name) in
      match repr_permissions (permissions self) with
      | Raise e => Raise e
      | Ok perms =>
        let temp := append temp (line "Permissions: " perms) in
        if file_type_eq self MDFT_STANDARD_DATA_FILE
           || file_type_eq self MDFT_BACKUP_DATA_FILE then
          Ok (append temp (line "File size: " (str_int (file_size self))))
        else if file_type_eq self MDFT_VALUE_FILE_WITH_BACKUP then
          let temp :=
            append temp (line "Lower limit: " (str_int (lower_limit self))) in
          let temp :=
            append temp (line "Upper limit: " (str_int (upper_limit self))) in
          let temp :=
            append temp (line "Initial value: " (str_int (value self))) in
          let temp :=
            append temp (line "Limited credit value: "
                           (str_int (limited_credit_value self))) in
          Ok (append temp (line "Limited credit enabled: "
                             (str_bool (limited_credit_enabled self))))
        else if file_type_eq self MDFT_LINEAR_RECORD_FILE_WITH_BACKUP
                || file_type_eq self MDFT_CYCLIC_RECORD_FILE_WITH_BACKUP then
          let temp :=
            append temp (line "Record size: " (str_int (file_size self))) in
          let temp :=
            append temp (line "Current record count: "
                           (str_int (record_count self))) in
          Ok (append temp (line "Max record count: "
                             (str_int (max_record_count self))))
        else Ok temp
      end
    end
  end.

End Repr.

Arguments FileSettings_new {FilePermissions}.

(** The text [__repr__] builds for each layout, from its parts. *)
Definition repr_header (ft_name cm_name perms : string) : string :=
  append (append (append (append " ----- FileSettings ----" CRLF)
                    (line "File type: " ft_name))
            (line "Encryption: " cm_name))
    (line "Permissions: " perms).

(** Printing on the card profile: the member names [parse] uses, and a
    permission text of the four key numbers. *)
Module ProfileText.

Definition file_type_name (ft : DESFireFileType) : string :=
  match ft with
  | MDFT_STANDARD_DATA_FILE => "MDFT_STANDARD_DATA_FILE"
  | MDFT_BACKUP_DATA_FILE => "MDFT_BACKUP_DATA_FILE"
  | MDFT_VALUE_FILE_WITH_BACKUP => "MDFT_VALUE_FILE_WITH_BACKUP"
  | MDFT_LINEAR_RECORD_FILE_WITH_BACKUP => "MDFT_LINEAR_RECORD_FILE_WITH_BACKUP"
  | MDFT_CYCLIC_RECORD_FILE_WITH_BACKUP => "MDFT_CYCLIC_RECORD_FILE_WITH_BACKUP"
  | MDFT_TRANSACTION_MAC_FILE => "MDFT_TRANSACTION_MAC_FILE"
  end%string.

Definition communication_mode_name (cm : DESFireCommunicationMode) : string :=
  match cm with
  | PLAIN => "PLAIN"
  | MAC => "MAC"
  | ENCRYPTED => "ENCRYPTED"
  end%string.

Definition FilePermissions_repr (p : Profile.FilePermissions) : result string :=
  Ok (append (str_int (Profile.read_access p))
        (append " " (append (str_int (Profile.write_access p))
           (append " " (append (str_int (Profile.read_write_access p))
              (append " " (str_int (Profile.change_access p)))))))).

(** [repr(fs)] on this profile. *)
Definition show (self : FileSettings Profile.FilePermissions) : result string :=
  FileSettings_repr Profile.file_type_value file_type_name
    communication_mode_name Profile.FilePermissions FilePermissions_repr self.

(** [FileSettings().parse(data)] on an object built by [self]. *)
Definition decode_into (self : FileSettings Profile.FilePermissions)
    (data : list Z) : FileSettings Profile.FilePermissions * result unit :=
  parse Profile.file_type_value Profile.communication_mode_value
    Profile.FilePermissions Profile.FilePermissions_init
    Profile.FilePermissions_parse data self.

End ProfileText.

(** * Properties of [transceive] *)

Section TransceiveFacts.

Variable translateprotocolheader : Z -> Z.
Variable SCardTransmit : Z -> Z -> list Z -> Z * list Z.
Variable SCardGetErrorMessage : Z -> string.

Local Abbreviation run :=
  (transceive translateprotocolheader SCardTransmit SCardGetErrorMessage).

Lemma build_apdu_cons ins payload :
  build_apdu (ins :: payload)
  = Ok ([0x90; ins; 0x00; 0x00; len payload] ++ payload
          ++ (if 0 <? len payload then [0x00] else [])).
Proof. reflexivity. Qed.

Lemma build_apdu_nil : build_apdu [] = Raise IndexError.
Proof. reflexivity. Qed.

(** On an open connection, a driver call that reports success hands its
    response to the unwrapping step; exactly one frame was sent. *)
Lemma transceive_transmitted self bytes h apdu r :
  hcard_truthy self = Some h ->
  build_apdu bytes = Ok apdu ->
  SCardTransmit h (translateprotocolheader (getProtocol self)) apdu = (0, r) ->
  run self bytes
  = ([ {| call_hcard := h;
          call_header := translateprotocolheader (getProtocol self);
          call_apdu := apdu |} ],
     unwrap_response r).
Proof.
  intros Hopen Hapdu Htx. unfold transceive.
  rewrite Hopen, Hapdu, Htx. reflexivity.
Qed.

(** Whatever the driver answers, an open connection sees the frame once. *)
Lemma transceive_calls self bytes h apdu :
  hcard_truthy self = Some h ->
  build_apdu bytes = Ok apdu ->
  fst (run self bytes)
  = [ {| call_hcard := h;
         call_header := translateprotocolheader (getProtocol self);
         call_apdu := apdu |} ].
Proof.
  intros Hopen Hapdu. unfold transceive. rewrite Hopen, Hapdu.
  destruct (SCardTransmit _ _ _) as [hresult response].
  destruct (negb (hresult =? 0)); reflexivity.
Qed.

(** If [transceive] returns, the driver reported success and the value is
    the unwrapped response. *)
Lemma transceive_returns self bytes resp :
  snd (run self bytes) = Ok resp ->
  exists r, unwrap_response r = Ok resp.
Proof.
  unfold transceive.
  destruct (hcard_truthy self) as [h|]; [|discriminate].
  destruct (build_apdu bytes) as [apdu|e]; [|discriminate].
  destruct (SCardTransmit _ _ _) as [hresult response].
  destruct (negb (hresult =? 0)); [discriminate|].
  simpl. eauto.
Qed.

End TransceiveFacts.

Lemma len_lt_2 (r : list Z) : (len r <? 2) = true <-> (length r < 2)%nat.
Proof. unfold len. rewrite Z.ltb_lt. lia. Qed.

Lemma getitem_lookup (l : list Z) i x : l !! i = Some x -> getitem l i = Ok x.
Proof. intros H. unfold getitem. rewrite H. reflexivity. Qed.

Lemma getitem_from_end_lookup (l : list Z) k x :
  (k <= length l)%nat -> l !! (length l - k)%nat = Some x ->
  getitem_from_end l k = Ok x.
Proof.
  intros Hk Hx. unfold getitem_from_end.
  destruct (Nat.leb_spec k (length l)); [|lia].
  apply getitem_lookup, Hx.
Qed.

(** A response too short for SW1 and SW2 is refused on its length. *)
Lemma unwrap_short r :
  (length r < 2)%nat ->
  unwrap_response r
  = Raise (CardConnectionException (Invalid_response_length (len r))).
Proof.
  intros H. unfold unwrap_response.
  apply len_lt_2 in H. rewrite H. reflexivity.
Qed.

(** A response whose SW1 is not 0x91 is refused, naming the byte seen. *)
Lemma unwrap_bad_sw1 r b :
  (2 <= length r)%nat -> r !! (length r - 2)%nat = Some b -> b <> 0x91 ->
  unwrap_response r = Raise (CardConnectionException (Unexpected_SW1 b)).
Proof.
  intros Hlen Hb Hne. unfold unwrap_response.
  destruct (len r <? 2) eqn:E; [apply len_lt_2 in E; lia|].
  rewrite (getitem_from_end_lookup r 2 b) by assumption.
  destruct (Z.eqb_spec b 0x91); [contradiction|reflexivity].
Qed.

(** A response ending in 0x91, SW2 is unwrapped to SW2 and the body. *)
Lemma unwrap_app body sw2 :
  unwrap_response (body ++ [0x91; sw2]) = Ok ([sw2] ++ body).
Proof.
  unfold unwrap_response.
  destruct (len _ <? 2) eqn:E.
  { apply len_lt_2 in E. rewrite length_app in E. simpl in E. lia. }
  assert (Hn : length (body ++ [0x91; sw2]) = (length body + 2)%nat)
    by (rewrite length_app; reflexivity).
  rewrite (getitem_from_end_lookup _ 2 0x91).
  - simpl negb. cbv iota.
    rewrite (getitem_from_end_lookup _ 1 sw2).
    + unfold slice_to_end_minus. rewrite Hn.
      replace (length body + 2 - 2)%nat with (length body) by lia.
      rewrite take_app_length. reflexivity.
    + lia.
    + rewrite Hn. replace (length body + 2 - 1)%nat with (length body + 1)%nat by lia.
      rewrite lookup_app_r by lia.
      replace (length body + 1 - length body)%nat with 1%nat by lia. reflexivity.
  - lia.
  - rewrite Hn. replace (length body + 2 - 2)%nat with (length body + 0)%nat by lia.
    rewrite lookup_app_r by lia.
    replace (length body + 0 - length body)%nat with 0%nat by lia. reflexivity.
Qed.

(** Splitting a response of two bytes or more at its status word. *)
Lemma split_status_word (r : list Z) :
  (2 <= length r)%nat ->
  exists sw1 sw2,
    r = take (length r - 2) r ++ [sw1; sw2]
    /\ r !! (length r - 2)%nat = Some sw1
    /\ r !! (length r - 1)%nat = Some sw2.
Proof.
  intros Hlen.
  destruct (lookup_lt_is_Some_2 r (length r - 2)) as [sw1 H1]; [lia|].
  destruct (lookup_lt_is_Some_2 r (length r - 1)) as [sw2 H2]; [lia|].
  exists sw1, sw2. split; [|auto].
  rewrite <- (take_drop (length r - 2) r) at 1. f_equal.
  rewrite (drop_S _ sw1 _ H1).
  replace (S (length r - 2)) with (length r - 1)%nat by lia.
  rewrite (drop_S _ sw2 _ H2).
  replace (S (length r - 1)) with (length r) by lia.
  rewrite drop_all. reflexivity.
Qed.

(** Only a non-empty list is ever returned. *)
Lemma unwrap_nonempty r resp : unwrap_response r = Ok resp -> resp <> [].
Proof.
  unfold unwrap_response.
  destruct (len r <? 2); [discriminate|].
  destruct (getitem_from_end r 2) as [sw1|]; [|discriminate].
  destruct (negb (sw1 =? 0x91)); [discriminate|].
  destruct (getitem_from_end r 1) as [sw2|]; [|discriminate].
  intros [= <-]. discriminate.
Qed.

Section TransceiveClaims.

Variable translateprotocolheader : Z -> Z.
Variable SCardTransmit : Z -> Z -> list Z -> Z * list Z.
Variable SCardGetErrorMessage : Z -> string.

Local Abbreviation run :=
  (transceive translateprotocolheader SCardTransmit SCardGetErrorMessage).

(** C1. For a native command [ins :: payload] with a payload of n bytes,
    0 <= n <= 255, the frame [transceive] builds and hands to the driver
    (once, on an open connection) is [0x90, ins, 0x00, 0x00, n], then the
    payload, then one trailing 0x00 exactly when n > 0; its length is
    5 + n + (1 if n > 0 else 0), and n fits the one-byte length field. *)
Theorem C1_transport_frame self h ins payload :
  hcard_truthy self = Some h ->
  0 <= len payload <= 255 ->
  let trailer := if 0 <? len payload then [0x00] else [] in
  let frame := [0x90; ins; 0x00; 0x00; len payload] ++ payload ++ trailer in
  build_apdu (ins :: payload) = Ok frame
  /\ fst (run self (ins :: payload))
     = [ {| call_hcard := h;
            call_header := translateprotocolheader (getProtocol self);
            call_apdu := frame |} ]
  /\ len frame = 5 + len payload + (if 0 <? len payload then 1 else 0)
  /\ is_byte (len payload).
Proof.
  intros Hopen Hn trailer frame.
  split; [apply build_apdu_cons|].
  split; [apply (transceive_calls _ _ _ self (ins :: payload) h frame Hopen),
            build_apdu_cons|].
  split; [|unfold is_byte; lia].
  subst frame trailer. unfold len.
  rewrite !length_app. simpl length.
  destruct (0 <? Z.of_nat (length payload)); simpl length; lia.
Qed.

(** C2 (amended). When the driver reports success with a response r of at
    least two bytes whose second-to-last byte is 0x91, [transceive]
    returns the last byte of r followed by r without its last two bytes.
    So a card answering [payload + [0x91, status]] yields
    [[status] + payload], and one echoing
    [[status] + payload + [0x91, status]] yields
    [[status, status] + payload]. *)
Theorem C2_native_response self bytes h apdu r :
  hcard_truthy self = Some h ->
  build_apdu bytes = Ok apdu ->
  SCardTransmit h (translateprotocolheader (getProtocol self)) apdu = (0, r) ->
  (2 <= length r)%nat ->
  r !! (length r - 2)%nat = Some 0x91 ->
  (exists sw2,
      r !! (length r - 1)%nat = Some sw2
      /\ snd (run self bytes) = Ok ([sw2] ++ take (length r - 2) r))
  /\ (forall status payload,
        r = payload ++ [0x91; status] ->
        snd (run self bytes) = Ok ([status] ++ payload))
  /\ (forall status payload,
        r = [status] ++ payload ++ [0x91; status] ->
        snd (run self bytes) = Ok ([status; status] ++ payload)).
Proof.
  intros Hopen Hapdu Htx Hlen Hsw1.
  rewrite (transceive_transmitted _ _ _ self bytes h apdu r Hopen Hapdu Htx).
  simpl snd.
  split; [|split].
  - destruct (split_status_word r Hlen) as (sw1 & sw2 & Hr & H1 & H2).
    exists sw2. split; [exact H2|].
    assert (sw1 = 0x91) as -> by congruence.
    rewrite Hr at 1. apply unwrap_app.
  - intros status payload ->. apply unwrap_app.
  - intros status payload ->.
    change ([status] ++ payload ++ [0x91; status])
      with ((status :: payload) ++ [0x91; status]).
    apply unwrap_app.
Qed.

(** C8. When the driver reports success with a response of at least two
    bytes whose second-to-last byte b is not 0x91, [transceive] raises
    [CardConnectionException] with the message naming b as the unexpected
    SW1, and returns nothing. *)
Theorem C8_unexpected_status_word self bytes h apdu r b :
  hcard_truthy self = Some h ->
  build_apdu bytes = Ok apdu ->
  SCardTransmit h (translateprotocolheader (getProtocol self)) apdu = (0, r) ->
  (2 <= length r)%nat ->
  r !! (length r - 2)%nat = Some b ->
  b <> 0x91 ->
  snd (run self bytes) = Raise (CardConnectionException (Unexpected_SW1 b)).
Proof.
  intros Hopen Hapdu Htx Hlen Hb Hne.
  rewrite (transceive_transmitted _ _ _ self bytes h apdu r Hopen Hapdu Htx).
  apply unwrap_bad_sw1; assumption.
Qed.

(** C9. When the driver reports success with a response of fewer than two
    bytes, [transceive] raises [CardConnectionException] for the invalid
    response length and returns nothing; and whatever [transceive]
    returns is a non-empty list. *)
Theorem C9_short_response self bytes :
  (forall h apdu r,
      hcard_truthy self = Some h ->
      build_apdu bytes = Ok apdu ->
      SCardTransmit h (translateprotocolheader (getProtocol self)) apdu = (0, r) ->
      (length r < 2)%nat ->
      snd (run self bytes)
      = Raise (CardConnectionException (Invalid_response_length (len r)))
      /\ is_length_check_error
           (CardConnectionException (Invalid_response_length (len r))) = true)
  /\ (forall resp, snd (run self bytes) = Ok resp -> resp <> []).
Proof.
  split.
  - intros h apdu r Hopen Hapdu Htx Hlen.
    rewrite (transceive_transmitted _ _ _ self bytes h apdu r Hopen Hapdu Htx).
    split; [apply unwrap_short, Hlen|reflexivity].
  - intros resp Hret.
    destruct (transceive_returns _ _ _ self bytes resp Hret) as [r Hr].
    exact (unwrap_nonempty r resp Hr).
Qed.

End TransceiveClaims.

Lemma C1_transport_frame_witness :
  build_apdu [0x6A; 0x01; 0x02] = Ok [0x90; 0x6A; 0x00; 0x00; 2; 0x01; 0x02; 0x00]
  /\ fst (Profile.exchange [0x00; 0x91; 0x00] [0x6A; 0x01; 0x02])
     = [ {| call_hcard := 1; call_header := 2;
            call_apdu := [0x90; 0x6A; 0x00; 0x00; 2; 0x01; 0x02; 0x00] |} ].
Proof.
  pose proof (C1_transport_frame Profile.translateprotocolheader
                (Profile.answering [0x00; 0x91; 0x00])
                Profile.SCardGetErrorMessage
                Profile.connection 1 0x6A [0x01; 0x02]
                eq_refl ltac:(unfold len; simpl; lia)) as (H1 & H2 & _).
  split; [exact H1|exact H2].
Defined.

Lemma C2_native_response_witness :
  snd (Profile.exchange [0xAA; 0xBB; 0x91; 0x00] [0x6A]) = Ok [0x00; 0xAA; 0xBB].
Proof.
  destruct (C2_native_response Profile.translateprotocolheader
              (Profile.answering [0xAA; 0xBB; 0x91; 0x00])
              Profile.SCardGetErrorMessage
              Profile.connection [0x6A] 1 [0x90; 0x6A; 0x00; 0x00; 0]
              [0xAA; 0xBB; 0x91; 0x00]
              eq_refl eq_refl eq_refl ltac:(simpl; lia) eq_refl)
    as (_ & H & _).
  exact (H 0x00 [0xAA; 0xBB] eq_refl).
Defined.

(** The echoing card of the round-trip test: the status byte comes back
    twice, so the result is not [[status] + payload]. *)
Lemma C2_echo_counterexample :
  snd (Profile.exchange ([0x00] ++ [0xAA] ++ [0x91; 0x00]) [0x6A])
  = Ok [0x00; 0x00; 0xAA]
  /\ snd (Profile.exchange ([0x00] ++ [0xAA] ++ [0x91; 0x00]) [0x6A])
     <> Ok ([0x00] ++ [0xAA]).
Proof. split; [reflexivity|discriminate]. Qed.

Lemma C8_unexpected_status_word_witness :
  snd (Profile.exchange [0xAA; 0x90; 0x00] [0x6A; 0x01])
  = Raise (CardConnectionException (Unexpected_SW1 0x90)).
Proof.
  apply (C8_unexpected_status_word Profile.translateprotocolheader
           (Profile.answering [0xAA; 0x90; 0x00])
           Profile.SCardGetErrorMessage
           Profile.connection [0x6A; 0x01] 1
           [0x90; 0x6A; 0x00; 0x00; 1; 0x01; 0x00] [0xAA; 0x90; 0x00] 0x90
           eq_refl eq_refl eq_refl).
  - simpl; lia.
  - reflexivity.
  - lia.
Defined.

Lemma C9_short_response_witness :
  snd (Profile.exchange [0x00] [0x6A])
  = Raise (CardConnectionException (Invalid_response_length 1))
  /\ (forall resp,
        snd (Profile.exchange [0xAA; 0x91; 0x00] [0x6A]) = Ok resp -> resp <> []).
Proof.
  split.
  - apply (proj1 (C9_short_response Profile.translateprotocolheader
                    (Profile.answering [0x00]) Profile.SCardGetErrorMessage
                    Profile.connection [0x6A])
             1 [0x90; 0x6A; 0x00; 0x00; 0] [0x00] eq_refl eq_refl eq_refl).
    simpl; lia.
  - exact (proj2 (C9_short_response Profile.translateprotocolheader
                    (Profile.answering [0xAA; 0x91; 0x00])
                    Profile.SCardGetErrorMessage
                    Profile.connection [0x6A])).
Defined.

(** * Properties of [FileSettings.parse] *)

Section EnumFacts.

Context {E : Type}.
Variable cls : enum_class.
Variable members : list E.
Variable value : E -> Z.

Lemma Enum_call_Ok v m :
  Enum_call cls members value v = Ok m -> value m = v /\ In m members.
Proof.
  unfold Enum_call.
  destruct (List.find _ members) as [m'|] eqn:F; [|discriminate].
  intros [= <-]. apply find_some in F as [Hin Hv].
  apply Z.eqb_eq in Hv. auto.
Qed.

Lemma Enum_call_Raise v e :
  Enum_call cls members value v = Raise e ->
  e = ValueError_not_a_valid cls v /\ forall m, In m members -> value m <> v.
Proof.
  unfold Enum_call.
  destruct (List.find _ members) as [m'|] eqn:F; [discriminate|].
  intros [= <-]. split; [reflexivity|].
  intros m Hin. apply (find_none _ _ F) in Hin. apply Z.eqb_neq, Hin.
Qed.

Lemma Enum_call_unassigned v :
  (forall m, In m members -> value m <> v) ->
  Enum_call cls members value v = Raise (ValueError_not_a_valid cls v).
Proof.
  intros H. unfold Enum_call.
  destruct (List.find _ members) as [m|] eqn:F; [|reflexivity].
  apply find_some in F as [Hin Hv]. apply Z.eqb_eq in Hv.
  destruct (H m Hin Hv).
Qed.

End EnumFacts.

Lemma le_uint_3 b4 b5 b6 :
  le_uint [b4; b5; b6; 0x00] = b4 + 256 * b5 + 65536 * b6.
Proof. unfold le_uint. simpl foldr. lia. Qed.

Lemma le_uint_4 b0 b1 b2 b3 :
  le_uint [b0; b1; b2; b3] = b0 + 256 * b1 + 65536 * b2 + 16777216 * b3.
Proof. unfold le_uint. simpl foldr. lia. Qed.

Lemma to_bytes_Ok l : Forall is_byte l -> to_bytes l = Ok l.
Proof.
  intros H. unfold to_bytes.
  replace (forallb _ l) with true; [reflexivity|].
  symmetry. apply forallb_forall. intros x Hx.
  rewrite Forall_forall in H. apply list_elem_of_In, H in Hx.
  unfold is_byte in Hx. apply andb_true_iff. split; [apply Z.leb_le|apply Z.ltb_lt]; lia.
Qed.


Lemma struct_unpack_I_Ok l :
  length l = 4%nat -> Forall is_byte l -> struct_unpack_I l = Ok (le_uint l).
Proof.
  intros Hlen Hb. unfold struct_unpack_I. rewrite (to_bytes_Ok l Hb).
  unfold unpack_le_I. rewrite Hlen. reflexivity.
Qed.

Lemma struct_unpack_I_length l n : struct_unpack_I l = Ok n -> length l = 4%nat.
Proof.
  unfold struct_unpack_I, to_bytes, unpack_le_I.
  destruct (forallb _ l); [|discriminate].
  destruct (Nat.eqb_spec (length l) 4); [auto|discriminate].
Qed.

(** [unpack] is given a buffer that is not four bytes long. *)
Lemma struct_unpack_I_short l :
  length l <> 4%nat -> Forall is_byte l -> struct_unpack_I l = Raise struct_error.
Proof.
  intros Hlen Hb. unfold struct_unpack_I. rewrite (to_bytes_Ok l Hb).
  unfold unpack_le_I. destruct (Nat.eqb_spec (length l) 4); [contradiction|reflexivity].
Qed.

Lemma length_slice (l : list Z) i j :
  length (slice l i j) = ((j - i) `min` (length l - i))%nat.
Proof. unfold slice. rewrite length_take, length_drop. reflexivity. Qed.

Lemma length_slice_pad (l : list Z) i j :
  length (slice l i j ++ [0x00]) = S ((j - i) `min` (length l - i))%nat.
Proof. rewrite length_app, length_slice. simpl. lia. Qed.

Lemma Forall_slice (P : Z -> Prop) l i j : Forall P l -> Forall P (slice l i j).
Proof. intros H. unfold slice. apply Forall_take, Forall_drop, H. Qed.

Lemma slice_S x (l : list Z) i j : slice (x :: l) (S i) (S j) = slice l i j.
Proof. reflexivity. Qed.

Lemma byte_at_S x (l : list Z) i : byte_at (x :: l) (S i) = byte_at l i.
Proof. reflexivity. Qed.

(** A slice of three bytes inside the buffer, by offset. *)
Lemma slice_3 (l : list Z) i :
  (i + 3 <= length l)%nat ->
  slice l i (i + 3) = [byte_at l i; byte_at l (S i); byte_at l (S (S i))].
Proof.
  revert l. induction i as [|i IH]; intros l Hlen.
  - destruct l as [|a [|b [|c l]]]; simpl in Hlen; try lia. reflexivity.
  - destruct l as [|x l]; simpl in Hlen; [lia|].
    change (S i + 3)%nat with (S (i + 3)). rewrite slice_S, IH by lia.
    reflexivity.
Qed.

(** A slice of four bytes inside the buffer, by offset. *)
Lemma slice_4 (l : list Z) i :
  (i + 4 <= length l)%nat ->
  slice l i (i + 4)
  = [byte_at l i; byte_at l (S i); byte_at l (S (S i)); byte_at l (S (S (S i)))].
Proof.
  revert l. induction i as [|i IH]; intros l Hlen.
  - destruct l as [|a [|b [|c [|d l]]]]; simpl in Hlen; try lia. reflexivity.
  - destruct l as [|x l]; simpl in Hlen; [lia|].
    change (S i + 4)%nat with (S (i + 4)). rewrite slice_S, IH by lia.
    reflexivity.
Qed.

Lemma byte_at_is_byte (l : list Z) i : Forall is_byte l -> is_byte (byte_at l i).
Proof.
  intros H. unfold byte_at.
  destruct (Nat.lt_ge_cases i (length l)) as [Hi|Hi].
  - rewrite Forall_forall in H. apply H, list_elem_of_In, nth_In, Hi.
  - rewrite nth_overflow by exact Hi. unfold is_byte. lia.
Qed.

(** Three bytes and a zero byte unpack to the 24-bit value at the offset. *)
Lemma unpack_le24 (l : list Z) i j :
  j = (i + 3)%nat -> (j <= length l)%nat -> Forall is_byte l ->
  struct_unpack_I (slice l i j ++ [0x00]) = Ok (le24_at l i).
Proof.
  intros -> Hlen Hb. rewrite slice_3 by exact Hlen.
  rewrite struct_unpack_I_Ok.
  - simpl app. rewrite le_uint_3. reflexivity.
  - reflexivity.
  - repeat constructor; try apply byte_at_is_byte; try assumption; lia.
Qed.

(** Four bytes unpack to the 32-bit value at the offset. *)
Lemma unpack_le32 (l : list Z) i j :
  j = (i + 4)%nat -> (j <= length l)%nat -> Forall is_byte l ->
  struct_unpack_I (slice l i j) = Ok (le32_at l i).
Proof.
  intros -> Hlen Hb. rewrite slice_4 by exact Hlen.
  rewrite struct_unpack_I_Ok.
  - rewrite le_uint_4. unfold le32_at, le24_at. reflexivity.
  - reflexivity.
  - repeat constructor; apply byte_at_is_byte; assumption.
Qed.

Lemma le24_at_range (l : list Z) i :
  Forall is_byte l -> 0 <= le24_at l i < 2 ^ 24.
Proof.
  intros H. unfold le24_at.
  pose proof (byte_at_is_byte l i H).
  pose proof (byte_at_is_byte l (S i) H).
  pose proof (byte_at_is_byte l (S (S i)) H).
  unfold is_byte in *. lia.
Qed.

Lemma le32_at_range (l : list Z) i :
  Forall is_byte l -> 0 <= le32_at l i < 2 ^ 32.
Proof.
  intros H. unfold le32_at.
  pose proof (le24_at_range l i H).
  pose proof (byte_at_is_byte l (S (S (S i))) H).
  unfold is_byte in *. lia.
Qed.

Lemma byte_at_lookup (l : list Z) i x : l !! i = Some x -> byte_at l i = x.
Proof.
  revert i. induction l as [|a l IH]; intros [|i] H; try discriminate.
  - injection H as ->. reflexivity.
  - rewrite byte_at_S. apply IH, H.
Qed.

(** The 24-bit value at an offset, from the three bytes found there. *)
Lemma le24_at_lookup (l : list Z) i b0 b1 b2 :
  l !! i = Some b0 -> l !! S i = Some b1 -> l !! S (S i) = Some b2 ->
  le24_at l i = b0 + 256 * b1 + 65536 * b2.
Proof.
  intros H0 H1 H2. unfold le24_at.
  rewrite (byte_at_lookup _ _ _ H0), (byte_at_lookup _ _ _ H1),
    (byte_at_lookup _ _ _ H2). reflexivity.
Qed.

(** The 32-bit value at an offset, from the four bytes found there. *)
Lemma le32_at_lookup (l : list Z) i b0 b1 b2 b3 :
  l !! i = Some b0 -> l !! S i = Some b1 -> l !! S (S i) = Some b2 ->
  l !! S (S (S i)) = Some b3 ->
  le32_at l i = b0 + 256 * b1 + 65536 * b2 + 16777216 * b3.
Proof.
  intros H0 H1 H2 H3. unfold le32_at.
  rewrite (le24_at_lookup _ _ _ _ _ H0 H1 H2), (byte_at_lookup _ _ _ H3).
  reflexivity.
Qed.

Section ParseFacts.

Variable file_type_value : DESFireFileType -> Z.
Variable communication_mode_value : DESFireCommunicationMode -> Z.
Variable FilePermissions : Type.
Variable FilePermissions_init : FilePermissions.
Variable FilePermissions_parse :
  FilePermissions -> list Z -> FilePermissions * result unit.

Local Abbreviation FT_call := (DESFireFileType_call file_type_value).
Local Abbreviation CM_call :=
  (DESFireCommunicationMode_call communication_mode_value).
Local Abbreviation run :=
  (parse file_type_value communication_mode_value
     FilePermissions FilePermissions_init FilePermissions_parse).
Local Abbreviation settings := (FileSettings FilePermissions).

(** The comparisons on [self.file_type] select the layout of the member
    that the enum call returned. *)
Lemma dispatch_call d0 ft :
  FT_call d0 = Ok ft -> dispatch file_type_value ft = layout_of ft.
Proof.
  unfold DESFireFileType_call, Enum_call, DESFireFileType_members. simpl List.find.
  repeat match goal with
         | |- context [file_type_value ?m =? d0] =>
             destruct (Z.eqb_spec (file_type_value m) d0)
         end;
    intros [= <-]; unfold dispatch, Enum_eq;
    repeat match goal with
           | |- context [?a =? ?b] => destruct (Z.eqb_spec a b)
           end; simpl; congruence.
Qed.

(** A byte that is the value of no decoded member is either the value of
    the transaction-MAC member or of no member at all. *)
Lemma FT_call_unsupported d0 :
  (forall m, In m supported_file_types -> file_type_value m <> d0) ->
  FT_call d0
  = if file_type_value MDFT_TRANSACTION_MAC_FILE =? d0
    then Ok MDFT_TRANSACTION_MAC_FILE
    else Raise (ValueError_not_a_valid cls_DESFireFileType d0).
Proof.
  intros H.
  unfold DESFireFileType_call, Enum_call, DESFireFileType_members. simpl List.find.
  repeat match goal with
         | |- context [file_type_value ?m =? d0] =>
             destruct (Z.eqb_spec (file_type_value m) d0) as [E|_];
             [try (exfalso; revert E; apply H; simpl; tauto)|]
         end; reflexivity.
Qed.

(** [parse] statement by statement: where it stops and what it leaves in
    [self]. *)
Lemma parse_unfold data st :
  run data st =
  match getitem data 0 with
  | Raise e => (st, Raise e)
  | Ok d0 =>
    match FT_call d0 with
    | Raise e => (st, Raise e)
    | Ok ft =>
      match getitem data 1 with
      | Raise e => (set_file_type ft st, Raise e)
      | Ok d1 =>
        match CM_call d1 with
        | Raise e => (set_file_type ft st, Raise e)
        | Ok cm =>
          match FilePermissions_parse FilePermissions_init (slice data 2 4) with
          | (p, Raise e) => (header_state ft cm p st, Raise e)
          | (p, Ok _) =>
            let st4 := header_state ft cm p st in
            match dispatch file_type_value ft with
            | DataFile =>
              match struct_unpack_I (slice data 4 7 ++ [0x00]) with
              | Raise e => (st4, Raise e)
              | Ok n => (set_file_size n st4, Ok tt)
              end
            | ValueFile =>
              match struct_unpack_I (slice data 4 8) with
              | Raise e => (st4, Raise e)
              | Ok lo =>
                let st5 := set_lower_limit lo st4 in
                match struct_unpack_I (slice data 8 12) with
                | Raise e => (st5, Raise e)
                | Ok hi =>
                  let st6 := set_upper_limit hi st5 in
                  match struct_unpack_I (slice data 12 16) with
                  | Raise e => (st6, Raise e)
                  | Ok lc =>
                    let st7 := set_limited_credit_value lc st6 in
                    match getitem data 16 with
                    | Raise e => (st7, Raise e)
                    | Ok d16 =>
                        (set_limited_credit_enabled (truthy d16) st7, Ok tt)
                    end
                  end
                end
              end
            | RecordFile =>
              match struct_unpack_I (slice data 4 7 ++ [0x00]) with
              | Raise e => (st4, Raise e)
              | Ok n =>
                let st5 := set_file_size n st4 in
                match struct_unpack_I (slice data 7 10 ++ [0x00]) with
                | Raise e => (st5, Raise e)
                | Ok m =>
                  let st6 := set_max_record_count m st5 in
                  match struct_unpack_I (slice data 10 13 ++ [0x00]) with
                  | Raise e => (st6, Raise e)
                  | Ok c => (set_record_count c st6, Ok tt)
                  end
                end
              end
            | Undecoded => (st4, Raise (NotImplementedError_Filetype d0))
            end
          end
        end
      end
    end
  end.
Proof.
  unfold parse, bind, lift, assign, permissions_parse, file_type_is, dispatch.
  destruct (getitem data 0) as [d0|]; [|reflexivity].
  destruct (FT_call d0) as [ft|]; [|reflexivity].
  destruct (getitem data 1) as [d1|]; [|reflexivity].
  destruct (CM_call d1) as [cm|]; [|reflexivity].
  cbv beta iota delta [permissions set_permissions set_encryption].
  destruct (FilePermissions_parse _ _) as [p [[]|e]]; [|reflexivity].
  cbv beta iota delta [file_type set_file_type header_state].
  destruct (Enum_eq _ ft MDFT_STANDARD_DATA_FILE
            || Enum_eq _ ft MDFT_BACKUP_DATA_FILE).
  { destruct (struct_unpack_I _); reflexivity. }
  cbv beta iota delta [file_type].
  destruct (Enum_eq _ ft MDFT_VALUE_FILE_WITH_BACKUP).
  { destruct (struct_unpack_I (slice data 4 8)); [|reflexivity].
    destruct (struct_unpack_I (slice data 8 12)); [|reflexivity].
    destruct (struct_unpack_I (slice data 12 16)); [|reflexivity].
    destruct (getitem data 16); reflexivity. }
  cbv beta iota delta [file_type].
  destruct (Enum_eq _ ft MDFT_CYCLIC_RECORD_FILE_WITH_BACKUP
            || Enum_eq _ ft MDFT_LINEAR_RECORD_FILE_WITH_BACKUP).
  { destruct (struct_unpack_I (slice data 4 7 ++ [0x00])); [|reflexivity].
    destruct (struct_unpack_I (slice data 7 10 ++ [0x00])); [|reflexivity].
    destruct (struct_unpack_I (slice data 10 13 ++ [0x00])); reflexivity. }
  reflexivity.
Qed.

(** C3 (amended). A buffer shorter than the length its decoded variant
    reads always makes [parse] raise, though by no length check: once the
    common header has decoded and the items are bytes, the exception is
    [struct.error] from unpacking a short slice, or [IndexError] from
    [data[16]] for a value file of exactly 16 bytes. *)
Theorem C3_short_buffer st data d0 ft n :
  data !! 0%nat = Some d0 ->
  FT_call d0 = Ok ft ->
  required_length ft = Some n ->
  (length data < n)%nat ->
  raised (snd (run data st)) = true
  /\ (forall d1 cm p,
        data !! 1%nat = Some d1 ->
        CM_call d1 = Ok cm ->
        FilePermissions_parse FilePermissions_init (slice data 2 4) = (p, Ok tt) ->
        Forall is_byte data ->
        snd (run data st) = Raise struct_error
        \/ (ft = MDFT_VALUE_FILE_WITH_BACKUP /\ length data = 16%nat
            /\ snd (run data st) = Raise IndexError)).
Proof.
  intros H0 Hft Hn Hlen.
  pose proof (dispatch_call d0 ft Hft) as Hd.
  rewrite parse_unfold, (getitem_lookup _ _ _ H0), Hft, Hd.
  split.
  - destruct (getitem data 1) as [d1|]; [|reflexivity].
    destruct (CM_call d1) as [cm|]; [|reflexivity].
    destruct (FilePermissions_parse _ _) as [p [[]|e]]; [|reflexivity].
    destruct ft; simpl in Hn; try discriminate; injection Hn as <-;
      simpl layout_of; cbv zeta.
    1,2: destruct (struct_unpack_I _) as [v|] eqn:E; [|reflexivity];
         apply struct_unpack_I_length in E;
         rewrite length_slice_pad in E; lia.
    + destruct (struct_unpack_I (slice data 4 8)) as [lo|] eqn:E1; [|reflexivity].
      destruct (struct_unpack_I (slice data 8 12)) as [hi|] eqn:E2; [|reflexivity].
      destruct (struct_unpack_I (slice data 12 16)) as [lc|] eqn:E3; [|reflexivity].
      apply struct_unpack_I_length in E3. rewrite length_slice in E3.
      unfold getitem. rewrite (lookup_ge_None_2 data 16) by lia. reflexivity.
    + destruct (struct_unpack_I (slice data 4 7 ++ [0x00])) as [a|] eqn:E1;
        [|reflexivity].
      destruct (struct_unpack_I (slice data 7 10 ++ [0x00])) as [b|] eqn:E2;
        [|reflexivity].
      destruct (struct_unpack_I (slice data 10 13 ++ [0x00])) as [c|] eqn:E3;
        [|reflexivity].
      apply struct_unpack_I_length in E3.
      rewrite length_slice_pad in E3. lia.
    + destruct (struct_unpack_I (slice data 4 7 ++ [0x00])) as [a|] eqn:E1;
        [|reflexivity].
      destruct (struct_unpack_I (slice data 7 10 ++ [0x00])) as [b|] eqn:E2;
        [|reflexivity].
      destruct (struct_unpack_I (slice data 10 13 ++ [0x00])) as [c|] eqn:E3;
        [|reflexivity].
      apply struct_unpack_I_length in E3.
      rewrite length_slice_pad in E3. lia.
  - intros d1 cm p H1 Hcm Hp Hb.
    rewrite (getitem_lookup _ _ _ H1), Hcm, Hp.
    assert (Hz : Forall is_byte [0x00]) by (repeat constructor; lia).
    assert (Hs3 : forall i j, Forall is_byte (slice data i j ++ [0x00]))
      by (intros; apply Forall_app; split; [apply Forall_slice, Hb|exact Hz]).
    destruct ft; simpl in Hn; try discriminate; injection Hn as <-;
      simpl layout_of; cbv zeta.
    1,2: left; rewrite struct_unpack_I_short;
         [reflexivity|rewrite length_slice_pad; lia|apply Hs3].
    + destruct (Nat.lt_ge_cases (length data) 8) as [L|L].
      { left. rewrite struct_unpack_I_short;
          [reflexivity|rewrite length_slice; lia|apply Forall_slice, Hb]. }
      rewrite (unpack_le32 data 4 8) by (auto; lia).
      destruct (Nat.lt_ge_cases (length data) 12) as [L2|L2].
      { left. rewrite struct_unpack_I_short;
          [reflexivity|rewrite length_slice; lia|apply Forall_slice, Hb]. }
      rewrite (unpack_le32 data 8 12) by (auto; lia).
      destruct (Nat.lt_ge_cases (length data) 16) as [L3|L3].
      { left. rewrite struct_unpack_I_short;
          [reflexivity|rewrite length_slice; lia|apply Forall_slice, Hb]. }
      rewrite (unpack_le32 data 12 16) by (auto; lia).
      right. split; [reflexivity|]. split; [lia|].
      unfold getitem. rewrite (lookup_ge_None_2 data 16) by lia. reflexivity.
    + left.
      destruct (Nat.lt_ge_cases (length data) 7) as [L|L].
      { rewrite struct_unpack_I_short;
          [reflexivity|rewrite length_slice_pad; lia|apply Hs3]. }
      rewrite (unpack_le24 data 4 7) by (auto; lia).
      destruct (Nat.lt_ge_cases (length data) 10) as [L2|L2].
      { rewrite struct_unpack_I_short;
          [reflexivity|rewrite length_slice_pad; lia|apply Hs3]. }
      rewrite (unpack_le24 data 7 10) by (auto; lia).
      rewrite struct_unpack_I_short;
        [reflexivity|rewrite length_slice_pad; lia|apply Hs3].
    + left.
      destruct (Nat.lt_ge_cases (length data) 7) as [L|L].
      { rewrite struct_unpack_I_short;
          [reflexivity|rewrite length_slice_pad; lia|apply Hs3]. }
      rewrite (unpack_le24 data 4 7) by (auto; lia).
      destruct (Nat.lt_ge_cases (length data) 10) as [L2|L2].
      { rewrite struct_unpack_I_short;
          [reflexivity|rewrite length_slice_pad; lia|apply Hs3]. }
      rewrite (unpack_le24 data 7 10) by (auto; lia).
      rewrite struct_unpack_I_short;
        [reflexivity|rewrite length_slice_pad; lia|apply Hs3].
Qed.

(** C4 (amended). A byte 0 that is the value of none of the five decoded
    members always makes [parse] raise. If it is the value of no member at
    all, the enum call raises [ValueError] naming the byte and [self] is
    untouched; if it is the value of the transaction-MAC member, then, once
    byte 1 and the permission bytes have decoded, [parse] raises
    [NotImplementedError] naming the byte. *)
Theorem C4_unsupported_file_type st data d0 :
  data !! 0%nat = Some d0 ->
  (forall m, In m supported_file_types -> file_type_value m <> d0) ->
  raised (snd (run data st)) = true
  /\ (file_type_value MDFT_TRANSACTION_MAC_FILE <> d0 ->
      run data st = (st, Raise (ValueError_not_a_valid cls_DESFireFileType d0)))
  /\ (file_type_value MDFT_TRANSACTION_MAC_FILE = d0 ->
      forall d1 cm p,
        data !! 1%nat = Some d1 ->
        CM_call d1 = Ok cm ->
        FilePermissions_parse FilePermissions_init (slice data 2 4) = (p, Ok tt) ->
        run data st
        = (header_state MDFT_TRANSACTION_MAC_FILE cm p st,
           Raise (NotImplementedError_Filetype d0))).
Proof.
  intros H0 Hun.
  pose proof (FT_call_unsupported d0 Hun) as Hcall.
  rewrite parse_unfold, (getitem_lookup _ _ _ H0).
  destruct (Z.eqb_spec (file_type_value MDFT_TRANSACTION_MAC_FILE) d0) as [E|E].
  - rewrite Hcall, (dispatch_call d0 _ Hcall). simpl layout_of.
    split; [|split].
    + destruct (getitem data 1) as [d1|]; [|reflexivity].
      destruct (CM_call d1) as [cm|]; [|reflexivity].
      destruct (FilePermissions_parse _ _) as [p [[]|e]]; reflexivity.
    + intros Hne. contradiction.
    + intros _ d1 cm p H1 Hcm Hp.
      rewrite (getitem_lookup _ _ _ H1), Hcm, Hp. reflexivity.
  - rewrite Hcall. split; [reflexivity|]. split; [reflexivity|].
    intros Heq. contradiction.
Qed.

(** C5 (amended). When [parse] raises it returns nothing, and [self] keeps
    what the statements before the failing one assigned: a failure on byte 0
    leaves [self] as it was, a later failure leaves [file_type] set from
    byte 0. The attribute [value], and [limited_credit_enabled] and
    [record_count], which are assigned last in their branches, are never
    changed by a failing [parse]. *)
Theorem C5_failed_parse st data st' e :
  run data st = (st', Raise e) ->
  value st' = value st
  /\ limited_credit_enabled st' = limited_credit_enabled st
  /\ record_count st' = record_count st
  /\ match getitem data 0 with
     | Raise _ => st' = st
     | Ok d0 =>
         match FT_call d0 with
         | Raise _ => st' = st
         | Ok ft => file_type st' = Some ft
         end
     end.
Proof.
  rewrite parse_unfold.
  destruct (getitem data 0) as [d0|]; [|intros [= <- _]; auto].
  destruct (FT_call d0) as [ft|]; [|intros [= <- _]; auto].
  destruct (getitem data 1) as [d1|]; [|intros [= <- _]; auto].
  destruct (CM_call d1) as [cm|]; [|intros [= <- _]; auto].
  destruct (FilePermissions_parse _ _) as [p [[]|e']]; [|intros [= <- _]; auto].
  cbv zeta.
  destruct (dispatch file_type_value ft).
  - destruct (struct_unpack_I _); intros [= <- ?]; auto.
  - destruct (struct_unpack_I (slice data 4 8)); [|intros [= <- _]; auto].
    destruct (struct_unpack_I (slice data 8 12)); [|intros [= <- _]; auto].
    destruct (struct_unpack_I (slice data 12 16)); [|intros [= <- _]; auto].
    destruct (getitem data 16); intros [= <- ?]; auto.
  - destruct (struct_unpack_I (slice data 4 7 ++ [0x00])); [|intros [= <- _]; auto].
    destruct (struct_unpack_I (slice data 7 10 ++ [0x00])); [|intros [= <- _]; auto].
    destruct (struct_unpack_I (slice data 10 13 ++ [0x00])); intros [= <- ?]; auto.
  - intros [= <- _]; auto.
Qed.

(** C6. For a buffer of at least 7 bytes whose byte 0 selects the standard
    or the backup data file (byte 1 and the permission bytes decoding),
    [parse] succeeds and sets [file_size] to the unsigned little-endian
    value of bytes 4-6, which is below 2^24. In particular
    [00 03 00 23 08 00 00] gives the standard data file, the communication
    mode of value 0x03, the permissions parsed from [00 23], and
    [file_size = 8], every other attribute keeping its default. *)
Theorem C6_data_file_size :
  (forall st data d0 d1 ft cm p,
      (7 <= length data)%nat ->
      Forall is_byte data ->
      data !! 0%nat = Some d0 ->
      FT_call d0 = Ok ft ->
      ft = MDFT_STANDARD_DATA_FILE \/ ft = MDFT_BACKUP_DATA_FILE ->
      data !! 1%nat = Some d1 ->
      CM_call d1 = Ok cm ->
      FilePermissions_parse FilePermissions_init (slice data 2 4) = (p, Ok tt) ->
      run data st = (set_file_size (le24_at data 4) (header_state ft cm p st), Ok tt)
      /\ 0 <= le24_at data 4 < 2 ^ 24)
  /\ (forall cm p,
        file_type_value MDFT_STANDARD_DATA_FILE = 0x00 ->
        CM_call 0x03 = Ok cm ->
        FilePermissions_parse FilePermissions_init [0x00; 0x23] = (p, Ok tt) ->
        run [0x00; 0x03; 0x00; 0x23; 0x08; 0x00; 0x00] FileSettings_init
        = ({| encryption := Some cm;
              file_type := Some MDFT_STANDARD_DATA_FILE;
              permissions := Some p;
              file_size := 8; lower_limit := 0; upper_limit := 0; value := 0;
              limited_credit_value := 0; limited_credit_enabled := false;
              record_count := 0; max_record_count := 0 |}, Ok tt)
        /\ communication_mode_value cm = 0x03).
Proof.
  assert (General : forall st data d0 d1 ft cm p,
      (7 <= length data)%nat ->
      Forall is_byte data ->
      data !! 0%nat = Some d0 ->
      FT_call d0 = Ok ft ->
      ft = MDFT_STANDARD_DATA_FILE \/ ft = MDFT_BACKUP_DATA_FILE ->
      data !! 1%nat = Some d1 ->
      CM_call d1 = Ok cm ->
      FilePermissions_parse FilePermissions_init (slice data 2 4) = (p, Ok tt) ->
      run data st = (set_file_size (le24_at data 4) (header_state ft cm p st), Ok tt)
      /\ 0 <= le24_at data 4 < 2 ^ 24).
  { intros st data d0 d1 ft cm p Hlen Hb H0 Hft Hsel H1 Hcm Hp.
    split; [|apply le24_at_range, Hb].
    rewrite parse_unfold, (getitem_lookup _ _ _ H0), Hft,
      (getitem_lookup _ _ _ H1), Hcm, Hp, (dispatch_call d0 ft Hft).
    cbv zeta.
    rewrite (unpack_le24 data 4 7) by (auto; lia).
    destruct Hsel as [-> | ->]; reflexivity. }
  split; [exact General|].
  intros cm p Hv Hcm Hp.
  assert (Hft : FT_call 0x00 = Ok MDFT_STANDARD_DATA_FILE).
  { unfold DESFireFileType_call, Enum_call, DESFireFileType_members.
    simpl List.find. rewrite Hv. reflexivity. }
  split.
  - assert (Hlen : (7 <= length [0x00; 0x03; 0x00; 0x23; 0x08; 0x00; 0x00])%nat)
      by (simpl; lia).
    assert (Hb : Forall is_byte [0x00; 0x03; 0x00; 0x23; 0x08; 0x00; 0x00])
      by (repeat constructor; lia).
    destruct (General FileSettings_init [0x00; 0x03; 0x00; 0x23; 0x08; 0x00; 0x00]
                0x00 0x03 MDFT_STANDARD_DATA_FILE cm p
                Hlen Hb eq_refl Hft (or_introl eq_refl) eq_refl Hcm Hp)
      as [Hrun _].
    exact Hrun.
  - apply (Enum_call_Ok _ _ _ _ _ Hcm).
Qed.

(** C7. For a buffer of at least 17 bytes whose byte 0 selects the value
    file (byte 1 and the permission bytes decoding), [parse] succeeds; the
    object then holds in [lower_limit], [upper_limit] and
    [limited_credit_value] the unsigned little-endian 32-bit values of bytes
    4-7, 8-11 and 12-15, that is b0 + 256 b1 + 65536 b2 + 16777216 b3 of the
    four bytes found there, and in [limited_credit_enabled] true exactly
    when byte 16 is not zero; the header attributes are set and the
    attributes of the other file types are as before. *)
Theorem C7_value_file st data d0 d1 d16 cm p :
  (17 <= length data)%nat ->
  Forall is_byte data ->
  data !! 0%nat = Some d0 ->
  FT_call d0 = Ok MDFT_VALUE_FILE_WITH_BACKUP ->
  data !! 1%nat = Some d1 ->
  CM_call d1 = Ok cm ->
  FilePermissions_parse FilePermissions_init (slice data 2 4) = (p, Ok tt) ->
  data !! 16%nat = Some d16 ->
  exists enabled,
    run data st
    = (set_limited_credit_enabled enabled
         (set_limited_credit_value (le32_at data 12)
            (set_upper_limit (le32_at data 8)
               (set_lower_limit (le32_at data 4)
                  (header_state MDFT_VALUE_FILE_WITH_BACKUP cm p st)))), Ok tt)
    /\ (enabled = true <-> d16 <> 0)
    /\ (d16 = 0x01 -> enabled = true)
    /\ (d16 = 0x00 -> enabled = false)
    /\ 0 <= le32_at data 4 < 2 ^ 32
    /\ 0 <= le32_at data 8 < 2 ^ 32
    /\ 0 <= le32_at data 12 < 2 ^ 32
    /\ snd (run data st) = Ok tt
    /\ lower_limit (fst (run data st)) = le32_at data 4
    /\ upper_limit (fst (run data st)) = le32_at data 8
    /\ limited_credit_value (fst (run data st)) = le32_at data 12
    /\ limited_credit_enabled (fst (run data st)) = enabled
    /\ file_type (fst (run data st)) = Some MDFT_VALUE_FILE_WITH_BACKUP
    /\ encryption (fst (run data st)) = Some cm
    /\ permissions (fst (run data st)) = Some p
    /\ file_size (fst (run data st)) = file_size st
    /\ value (fst (run data st)) = value st
    /\ record_count (fst (run data st)) = record_count st
    /\ max_record_count (fst (run data st)) = max_record_count st
    /\ (forall i b0 b1 b2 b3,
          data !! i = Some b0 -> data !! S i = Some b1 ->
          data !! S (S i) = Some b2 -> data !! S (S (S i)) = Some b3 ->
          le32_at data i = b0 + 256 * b1 + 65536 * b2 + 16777216 * b3).
Proof.
  intros Hlen Hb H0 Hft H1 Hcm Hp H16.
  exists (truthy d16).
  assert (Hrun : run data st
    = (set_limited_credit_enabled (truthy d16)
         (set_limited_credit_value (le32_at data 12)
            (set_upper_limit (le32_at data 8)
               (set_lower_limit (le32_at data 4)
                  (header_state MDFT_VALUE_FILE_WITH_BACKUP cm p st)))), Ok tt)).
  { rewrite parse_unfold, (getitem_lookup _ _ _ H0), Hft,
      (getitem_lookup _ _ _ H1), Hcm, Hp, (dispatch_call d0 _ Hft).
    simpl layout_of. cbv zeta.
    rewrite (unpack_le32 data 4 8) by (auto; lia).
    rewrite (unpack_le32 data 8 12) by (auto; lia).
    rewrite (unpack_le32 data 12 16) by (auto; lia).
    rewrite (getitem_lookup _ _ _ H16). reflexivity. }
  rewrite Hrun. simpl fst. simpl snd.
  split; [reflexivity|].
  split.
  { unfold truthy. split.
    - destruct (Z.eqb_spec d16 0); [discriminate|auto].
    - intros Hne. destruct (Z.eqb_spec d16 0); [contradiction|reflexivity]. }
  split; [intros ->; reflexivity|].
  split; [intros ->; reflexivity|].
  split; [apply le32_at_range, Hb|].
  split; [apply le32_at_range, Hb|].
  split; [apply le32_at_range, Hb|].
  do 12 (split; [reflexivity|]).
  intros i b0 b1 b2 b3. apply le32_at_lookup.
Qed.

(** C10. When byte 1 is the value of no communication mode, [parse] raises
    [ValueError]: for byte 0 if the file type is not valid either,
    otherwise for byte 1. Nothing but [file_type] has been assigned, so no
    variant field and no permission is set, and the outcome is the same for
    every buffer with these two first bytes: the rest is never read. *)
Theorem C10_invalid_communication_mode st data d0 d1 :
  data !! 0%nat = Some d0 ->
  data !! 1%nat = Some d1 ->
  (forall cm, communication_mode_value cm <> d1) ->
  (run data st = (st, Raise (ValueError_not_a_valid cls_DESFireFileType d0))
   \/ exists ft,
        FT_call d0 = Ok ft
        /\ run data st
           = (set_file_type ft st,
              Raise (ValueError_not_a_valid cls_DESFireCommunicationMode d1)))
  /\ (forall data',
        data' !! 0%nat = Some d0 -> data' !! 1%nat = Some d1 ->
        run data' st = run data st).
Proof.
  intros H0 H1 Hcm.
  assert (Hcall : CM_call d1
                  = Raise (ValueError_not_a_valid cls_DESFireCommunicationMode d1))
    by (apply Enum_call_unassigned; intros m _; apply Hcm).
  assert (Hrun : forall l, l !! 0%nat = Some d0 -> l !! 1%nat = Some d1 ->
            run l st
            = match FT_call d0 with
              | Raise e => (st, Raise e)
              | Ok ft =>
                  (set_file_type ft st,
                   Raise (ValueError_not_a_valid cls_DESFireCommunicationMode d1))
              end).
  { intros l L0 L1.
    rewrite parse_unfold, (getitem_lookup _ _ _ L0), (getitem_lookup _ _ _ L1), Hcall.
    reflexivity. }
  split.
  - rewrite (Hrun data H0 H1).
    destruct (FT_call d0) as [ft|e] eqn:Hft.
    + right. exists ft. auto.
    + left. apply Enum_call_Raise in Hft as [-> _]. reflexivity.
  - intros data' L0 L1. rewrite (Hrun data' L0 L1), (Hrun data H0 H1). reflexivity.
Qed.

End ParseFacts.

(** * The claims on the card profile *)

Lemma C3_short_buffer_witness :
  raised (snd (Profile.decode
                 [0x02; 0x03; 0x00; 0x23; 1; 0; 0; 0; 2; 0; 0; 0; 3; 0; 0; 0]))
  = true.
Proof.
  apply (C3_short_buffer Profile.file_type_value Profile.communication_mode_value
           Profile.FilePermissions Profile.FilePermissions_init
           Profile.FilePermissions_parse FileSettings_init
           [0x02; 0x03; 0x00; 0x23; 1; 0; 0; 0; 2; 0; 0; 0; 3; 0; 0; 0]
           0x02 MDFT_VALUE_FILE_WITH_BACKUP 17%nat eq_refl eq_refl eq_refl).
  simpl. lia.
Defined.

(** A standard data file of six bytes stops in [struct.unpack], a value
    file of sixteen bytes in [data[16]]: neither is a length check. *)
Lemma C3_length_check_counterexample :
  (length [0x00; 0x03; 0x00; 0x23; 0x08; 0x00] < 7)%nat
  /\ snd (Profile.decode [0x00; 0x03; 0x00; 0x23; 0x08; 0x00]) = Raise struct_error
  /\ is_length_check_error struct_error = false
  /\ (length [0x02; 0x03; 0x00; 0x23; 1; 0; 0; 0; 2; 0; 0; 0; 3; 0; 0; 0] < 17)%nat
  /\ snd (Profile.decode
            [0x02; 0x03; 0x00; 0x23; 1; 0; 0; 0; 2; 0; 0; 0; 3; 0; 0; 0])
     = Raise IndexError
  /\ is_length_check_error IndexError = false.
Proof. repeat split; simpl; lia. Qed.

Lemma C4_unsupported_file_type_witness :
  raised (snd (Profile.decode [0x05; 0x01; 0x00; 0x23])) = true
  /\ snd (Profile.decode [0x05; 0x01; 0x00; 0x23])
     = Raise (NotImplementedError_Filetype 0x05).
Proof.
  assert (Hun : forall m, In m supported_file_types ->
                          Profile.file_type_value m <> 0x05).
  { intros m Hin. simpl in Hin.
    destruct Hin as [<-|[<-|[<-|[<-|[<-|[]]]]]]; discriminate. }
  destruct (C4_unsupported_file_type Profile.file_type_value
              Profile.communication_mode_value
              Profile.FilePermissions Profile.FilePermissions_init
              Profile.FilePermissions_parse FileSettings_init
              [0x05; 0x01; 0x00; 0x23] 0x05 eq_refl Hun) as (Hr & _ & Hmac).
  split; [exact Hr|].
  unfold Profile.decode.
  rewrite (Hmac eq_refl 0x01 MAC _ eq_refl eq_refl eq_refl). reflexivity.
Defined.

(** The transaction-MAC byte followed by an invalid communication mode
    reports byte 1, not the file type; an unassigned byte stops in the enum
    call with [ValueError]. *)
Lemma C4_error_kind_counterexample :
  snd (Profile.decode [0x05; 0x02; 0x00; 0x23])
  = Raise (ValueError_not_a_valid cls_DESFireCommunicationMode 0x02)
  /\ snd (Profile.decode [0x05; 0x02; 0x00; 0x23])
     <> Raise (NotImplementedError_Filetype 0x05)
  /\ snd (Profile.decode [0x07; 0x00; 0x00; 0x23])
     = Raise (ValueError_not_a_valid cls_DESFireFileType 0x07)
  /\ snd (Profile.decode [0x07; 0x00; 0x00; 0x23])
     <> Raise (NotImplementedError_Filetype 0x07)
  /\ snd (Profile.decode [0x05]) = Raise IndexError.
Proof. repeat split; discriminate. Qed.

Lemma C5_failed_parse_witness :
  value (fst (Profile.decode [0x00; 0x02])) = 0
  /\ file_type (fst (Profile.decode [0x00; 0x02])) = Some MDFT_STANDARD_DATA_FILE.
Proof.
  destruct (C5_failed_parse Profile.file_type_value
              Profile.communication_mode_value
              Profile.FilePermissions Profile.FilePermissions_init
              Profile.FilePermissions_parse FileSettings_init
              [0x00; 0x02] _ _ eq_refl) as (Hv & _ & _ & Hft).
  split; [exact Hv|exact Hft].
Defined.

(** A decode that fails on byte 1 has already set [file_type]; one that
    fails on [data[16]] has also set the header and three value fields. *)
Lemma C5_partial_state_counterexample :
  snd (Profile.decode [0x00; 0x02])
  = Raise (ValueError_not_a_valid cls_DESFireCommunicationMode 0x02)
  /\ file_type (fst (Profile.decode [0x00; 0x02])) = Some MDFT_STANDARD_DATA_FILE
  /\ file_type (fst (Profile.decode [0x00; 0x02]))
     <> file_type (@FileSettings_init Profile.FilePermissions)
  /\ snd (Profile.decode
            [0x02; 0x03; 0x00; 0x23; 1; 0; 0; 0; 2; 0; 0; 0; 3; 0; 0; 0])
     = Raise IndexError
  /\ lower_limit (fst (Profile.decode
            [0x02; 0x03; 0x00; 0x23; 1; 0; 0; 0; 2; 0; 0; 0; 3; 0; 0; 0])) = 1
  /\ upper_limit (fst (Profile.decode
            [0x02; 0x03; 0x00; 0x23; 1; 0; 0; 0; 2; 0; 0; 0; 3; 0; 0; 0])) = 2
  /\ limited_credit_value (fst (Profile.decode
            [0x02; 0x03; 0x00; 0x23; 1; 0; 0; 0; 2; 0; 0; 0; 3; 0; 0; 0])) = 3.
Proof. repeat split; discriminate. Qed.

Lemma C6_data_file_size_witness :
  Profile.decode [0x00; 0x03; 0x00; 0x23; 0x08; 0x00; 0x00]
  = ({| encryption := Some ENCRYPTED;
        file_type := Some MDFT_STANDARD_DATA_FILE;
        permissions :=
          Some {| Profile.change_access := 0; Profile.read_write_access := 0;
                  Profile.write_access := 3; Profile.read_access := 2 |};
        file_size := 8; lower_limit := 0; upper_limit := 0; value := 0;
        limited_credit_value := 0; limited_credit_enabled := false;
        record_count := 0; max_record_count := 0 |}, Ok tt)
  /\ file_size (fst (Profile.decode [0x01; 0x00; 0x00; 0x00; 0x34; 0x12; 0x01; 0xFF]))
     = 0x011234.
Proof.
  pose proof (C6_data_file_size Profile.file_type_value
                Profile.communication_mode_value
                Profile.FilePermissions Profile.FilePermissions_init
                Profile.FilePermissions_parse) as [General Example].
  split.
  - exact (proj1 (Example ENCRYPTED _ eq_refl eq_refl eq_refl)).
  - assert (Hlen : (7 <= length [0x01; 0x00; 0x00; 0x00; 0x34; 0x12; 0x01; 0xFF])%nat)
      by (simpl; lia).
    assert (Hb : Forall is_byte [0x01; 0x00; 0x00; 0x00; 0x34; 0x12; 0x01; 0xFF])
      by (repeat constructor; lia).
    unfold Profile.decode.
    rewrite (proj1 (General FileSettings_init
                      [0x01; 0x00; 0x00; 0x00; 0x34; 0x12; 0x01; 0xFF]
                      0x01 0x00 MDFT_BACKUP_DATA_FILE PLAIN _
                      Hlen Hb eq_refl eq_refl (or_intror eq_refl)
                      eq_refl eq_refl eq_refl)).
    reflexivity.
Defined.

Lemma C7_value_file_witness :
  Profile.decode
    [0x02; 0x03; 0x00; 0x23; 1; 0; 0; 0; 2; 1; 0; 0; 3; 0; 0; 1; 0x01]
  = ({| encryption := Some ENCRYPTED;
        file_type := Some MDFT_VALUE_FILE_WITH_BACKUP;
        permissions :=
          Some {| Profile.change_access := 0; Profile.read_write_access := 0;
                  Profile.write_access := 3; Profile.read_access := 2 |};
        file_size := 0; lower_limit := 1; upper_limit := 258; value := 0;
        limited_credit_value := 16777219; limited_credit_enabled := true;
        record_count := 0; max_record_count := 0 |}, Ok tt)
  /\ lower_limit (fst (Profile.decode
       [0x02; 0x03; 0x00; 0x23; 1; 0; 0; 0; 2; 1; 0; 0; 3; 0; 0; 1; 0x01])) = 1
  /\ upper_limit (fst (Profile.decode
       [0x02; 0x03; 0x00; 0x23; 1; 0; 0; 0; 2; 1; 0; 0; 3; 0; 0; 1; 0x01])) = 258
  /\ limited_credit_value (fst (Profile.decode
       [0x02; 0x03; 0x00; 0x23; 1; 0; 0; 0; 2; 1; 0; 0; 3; 0; 0; 1; 0x01]))
     = 16777219
  /\ limited_credit_enabled (fst (Profile.decode
       [0x02; 0x03; 0x00; 0x23; 1; 0; 0; 0; 2; 1; 0; 0; 3; 0; 0; 1; 0x01]))
     = true.
Proof.
  assert (Hlen : (17 <= length
            [0x02; 0x03; 0x00; 0x23; 1; 0; 0; 0; 2; 1; 0; 0; 3; 0; 0; 1; 0x01])%nat)
    by (simpl; lia).
  assert (Hb : Forall is_byte
            [0x02; 0x03; 0x00; 0x23; 1; 0; 0; 0; 2; 1; 0; 0; 3; 0; 0; 1; 0x01])
    by (repeat constructor; lia).
  destruct (C7_value_file Profile.file_type_value
              Profile.communication_mode_value
              Profile.FilePermissions Profile.FilePermissions_init
              Profile.FilePermissions_parse FileSettings_init
              [0x02; 0x03; 0x00; 0x23; 1; 0; 0; 0; 2; 1; 0; 0; 3; 0; 0; 1; 0x01]
              0x02 0x03 0x01 ENCRYPTED _
              Hlen Hb eq_refl eq_refl eq_refl eq_refl eq_refl eq_refl)
    as (enabled & Hrun & _ & Hone & _ & _ & _ & _ & _
        & Hlo & Hup & Hlc & Hen & _).
  pose proof (Hone eq_refl) as Htrue.
  rewrite Htrue in Hrun, Hen.
  split; [exact Hrun|].
  split; [exact Hlo|]. split; [exact Hup|]. split; [exact Hlc|exact Hen].
Defined.

Lemma C10_invalid_communication_mode_witness :
  Profile.decode [0x00; 0x02; 0x00; 0x23; 0x08; 0x00; 0x00]
  = Profile.decode [0x00; 0x02].
Proof.
  assert (Hcm : forall cm, Profile.communication_mode_value cm <> 0x02)
    by (intros []; discriminate).
  exact (proj2 (C10_invalid_communication_mode Profile.file_type_value
                  Profile.communication_mode_value
                  Profile.FilePermissions Profile.FilePermissions_init
                  Profile.FilePermissions_parse FileSettings_init
                  [0x00; 0x02] 0x00 0x02 eq_refl eq_refl Hcm)
           [0x00; 0x02; 0x00; 0x23; 0x08; 0x00; 0x00] eq_refl eq_refl).
Defined.

(** * Further properties of [transceive] *)

Lemma getitem_from_end_Ok (l : list Z) k :
  (1 <= k <= length l)%nat -> exists x, getitem_from_end l k = Ok x.
Proof.
  intros Hk.
  destruct (lookup_lt_is_Some_2 l (length l - k)) as [x Hx]; [lia|].
  exists x. apply getitem_from_end_lookup; [lia|exact Hx].
Qed.

(** What a returned value says about the raw response. *)
Lemma unwrap_Ok_inv r resp :
  unwrap_response r = Ok resp ->
  exists body sw2, r = body ++ [0x91; sw2] /\ resp = sw2 :: body.
Proof.
  intros H.
  destruct (Nat.lt_ge_cases (length r) 2) as [Hlt|Hge].
  { rewrite unwrap_short in H by exact Hlt. discriminate. }
  destruct (split_status_word r Hge) as (sw1 & sw2 & Hr & H1 & _).
  destruct (Z.eq_dec sw1 0x91) as [->|Hne].
  - exists (take (length r - 2) r), sw2. split; [exact Hr|].
    rewrite Hr, unwrap_app in H. injection H as <-. reflexivity.
  - rewrite (unwrap_bad_sw1 r sw1 Hge H1 Hne) in H. discriminate.
Qed.

(** Every exception of the unwrapping step is a [CardConnectionException]. *)
Lemma unwrap_Raise_inv r e :
  unwrap_response r = Raise e ->
  e = CardConnectionException (Invalid_response_length (len r))
  \/ exists sw1, sw1 <> 0x91 /\ r !! (length r - 2)%nat = Some sw1
                 /\ e = CardConnectionException (Unexpected_SW1 sw1).
Proof.
  intros H.
  destruct (Nat.lt_ge_cases (length r) 2) as [Hlt|Hge].
  { rewrite unwrap_short in H by exact Hlt. injection H as <-. auto. }
  destruct (split_status_word r Hge) as (sw1 & sw2 & Hr & H1 & _).
  destruct (Z.eq_dec sw1 0x91) as [->|Hne].
  - rewrite Hr, unwrap_app in H. discriminate.
  - rewrite (unwrap_bad_sw1 r sw1 Hge H1 Hne) in H. injection H as <-.
    right. exists sw1. auto.
Qed.

Lemma build_apdu_Ok_inv bytes apdu :
  build_apdu bytes = Ok apdu ->
  exists ins payload,
    bytes = ins :: payload
    /\ apdu = [0x90; ins; 0x00; 0x00; len payload] ++ payload
                ++ (if 0 <? len payload then [0x00] else []).
Proof.
  destruct bytes as [|ins payload]; [discriminate|].
  rewrite build_apdu_cons. intros [= <-]. eauto.
Qed.

Section TransceiveMore.

Variable translateprotocolheader : Z -> Z.
Variable SCardTransmit : Z -> Z -> list Z -> Z * list Z.
Variable SCardGetErrorMessage : Z -> string.

Local Abbreviation run :=
  (transceive translateprotocolheader SCardTransmit SCardGetErrorMessage).

(** X1. Nothing is transmitted unless the connection is open and the
    command has an instruction byte: a connection that is not open raises
    [DESFireException] whatever the command (the empty one included), and an
    empty command on an open connection raises [IndexError]. *)
Theorem transceive_refuses_before_transmit self bytes :
  (hcard_truthy self = None ->
   run self bytes = ([], Raise DESFireException_non_open))
  /\ (forall h, hcard_truthy self = Some h -> bytes = [] ->
      run self bytes = ([], Raise IndexError))
  /\ (fst (run self bytes) = [] <-> hcard_truthy self = None \/ bytes = []).
Proof.
  unfold transceive. split; [|split].
  - intros ->. reflexivity.
  - intros h -> ->. reflexivity.
  - destruct (hcard_truthy self) as [h|]; [|simpl; tauto].
    destruct bytes as [|ins payload]; [simpl; tauto|].
    rewrite build_apdu_cons.
    destruct (SCardTransmit _ _ _) as [hresult response].
    destruct (negb (hresult =? 0)); simpl;
      (split; [discriminate|intros [?|?]; discriminate]).
Qed.

(** X2. [transceive] calls the driver at most once, with the handle of the
    connection, and never again after a failure. *)
Theorem transceive_at_most_one_call self bytes :
  (length (fst (run self bytes)) <= 1)%nat
  /\ forall c, In c (fst (run self bytes)) ->
       hcard_truthy self = Some (call_hcard c)
       /\ call_header c = translateprotocolheader (getProtocol self)
       /\ build_apdu bytes = Ok (call_apdu c).
Proof.
  unfold transceive.
  destruct (hcard_truthy self) as [h|]; [|simpl; split; [lia|tauto]].
  destruct (build_apdu bytes) as [apdu|e]; [|simpl; split; [lia|tauto]].
  destruct (SCardTransmit _ _ _) as [hresult response].
  destruct (negb (hresult =? 0)); simpl;
    (split; [lia|intros c [<-|[]]; auto]).
Qed.

(** X3. A driver result other than 0 raises [CardConnectionException] with
    the header used and the driver's error text, whatever bytes came back
    with it: a response that would unwrap is not looked at. *)
Theorem transceive_transmit_failure self bytes h apdu hresult r :
  hcard_truthy self = Some h ->
  build_apdu bytes = Ok apdu ->
  SCardTransmit h (translateprotocolheader (getProtocol self)) apdu
  = (hresult, r) ->
  hresult <> 0 ->
  snd (run self bytes)
  = Raise (CardConnectionException
             (Failed_to_transmit (translateprotocolheader (getProtocol self))
                (SCardGetErrorMessage hresult))).
Proof.
  intros Hopen Hapdu Htx Hne. unfold transceive.
  rewrite Hopen, Hapdu, Htx.
  destruct (Z.eqb_spec hresult 0); [contradiction|reflexivity].
Qed.

(** X4. [transceive] returns a value exactly when the connection is open,
    the command is not empty, the driver reports 0 and the raw response
    ends in 0x91, SW2; the value is then SW2 followed by the bytes before
    the status word. *)
Theorem transceive_returns_iff self bytes resp :
  snd (run self bytes) = Ok resp
  <-> exists h apdu body sw2,
        hcard_truthy self = Some h
        /\ build_apdu bytes = Ok apdu
        /\ SCardTransmit h (translateprotocolheader (getProtocol self)) apdu
           = (0, body ++ [0x91; sw2])
        /\ resp = sw2 :: body.
Proof.
  split.
  - unfold transceive.
    destruct (hcard_truthy self) as [h|]; [|discriminate].
    destruct (build_apdu bytes) as [apdu|e]; [|discriminate].
    destruct (SCardTransmit _ _ _) as [hresult response] eqn:Htx.
    destruct (Z.eqb_spec hresult 0) as [->|]; [|discriminate].
    simpl. intros Hun.
    destruct (unwrap_Ok_inv _ _ Hun) as (body & sw2 & -> & ->).
    exists h, apdu, body, sw2. auto.
  - intros (h & apdu & body & sw2 & Hopen & Hapdu & Htx & ->).
    rewrite (transceive_transmitted _ _ _ self bytes h apdu _ Hopen Hapdu Htx).
    apply unwrap_app.
Qed.

(** X5. Whatever [transceive] raises is the [DESFireException] of a
    connection that is not open, the [IndexError] of an empty command, or a
    [CardConnectionException]. *)
Theorem transceive_raises_only self bytes e :
  snd (run self bytes) = Raise e ->
  (e = DESFireException_non_open /\ hcard_truthy self = None)
  \/ (e = IndexError /\ bytes = [])
  \/ exists msg, e = CardConnectionException msg.
Proof.
  unfold transceive.
  destruct (hcard_truthy self) as [h|]; [|intros [= <-]; auto].
  destruct bytes as [|ins payload]; [intros [= <-]; auto|].
  rewrite build_apdu_cons.
  destruct (SCardTransmit _ _ _) as [hresult response].
  destruct (negb (hresult =? 0)); simpl.
  - intros [= <-]. eauto.
  - intros Hun. right. right.
    destruct (unwrap_Raise_inv _ _ Hun) as [->|(sw1 & _ & _ & ->)]; eauto.
Qed.

End TransceiveMore.

(** X6. Two commands that are wrapped into the same frame are the same
    command. *)
Theorem build_apdu_injective bytes1 bytes2 apdu :
  build_apdu bytes1 = Ok apdu -> build_apdu bytes2 = Ok apdu -> bytes1 = bytes2.
Proof.
  intros H1 H2.
  destruct (build_apdu_Ok_inv _ _ H1) as (i1 & p1 & -> & E1).
  destruct (build_apdu_Ok_inv _ _ H2) as (i2 & p2 & -> & E2).
  rewrite E1 in E2. simpl in E2.
  injection E2 as Hi Hl Hp. subst i2.
  apply app_inj_1 in Hp as [-> _]; [reflexivity|].
  unfold len in Hl. lia.
Qed.

(** X7. The frame is a list of bytes exactly when the command is one and
    is at most 256 bytes long: a longer payload is wrapped all the same,
    with a length field that is no byte. *)
Theorem build_apdu_bytes bytes apdu :
  build_apdu bytes = Ok apdu ->
  (Forall is_byte apdu <-> Forall is_byte bytes /\ (length bytes <= 256)%nat)
  /\ apdu !! 4%nat = Some (len bytes - 1).
Proof.
  intros H. destruct (build_apdu_Ok_inv _ _ H) as (ins & payload & -> & ->).
  assert (Ht : Forall is_byte (if 0 <? len payload then [0x00] else [])).
  { destruct (0 <? len payload); repeat constructor; lia. }
  split.
  - simpl app. simpl length. unfold len in *. split.
    + intros Hf.
      apply Forall_cons in Hf as [_ Hf]. apply Forall_cons in Hf as [Hins Hf].
      apply Forall_cons in Hf as [_ Hf]. apply Forall_cons in Hf as [_ Hf].
      apply Forall_cons in Hf as [Hn Hf]. apply Forall_app in Hf as [Hp _].
      unfold is_byte in Hn. split; [constructor; assumption|lia].
    + intros [Hf Hl]. apply Forall_cons in Hf as [Hins Hp].
      repeat (apply Forall_cons; split); try (unfold is_byte; lia); try assumption.
      apply Forall_app. split; assumption.
  - simpl. f_equal. unfold len. simpl length. lia.
Qed.

(** * Further properties of [FileSettings.parse] *)

Lemma getitem_Ok_inv (l : list Z) i x : getitem l i = Ok x -> l !! i = Some x.
Proof. unfold getitem. destruct (l !! i); [intros [= <-]; reflexivity|discriminate]. Qed.

Lemma getitem_Raise_inv (l : list Z) i e :
  getitem l i = Raise e -> e = IndexError /\ (length l <= i)%nat.
Proof.
  unfold getitem. destruct (l !! i) eqn:E; [discriminate|].
  intros [= <-]. split; [reflexivity|]. apply lookup_ge_None, E.
Qed.

Lemma struct_unpack_I_Raise_inv l e :
  struct_unpack_I l = Raise e -> e = struct_error \/ e = ValueError_bytes_range.
Proof.
  unfold struct_unpack_I, to_bytes, unpack_le_I.
  destruct (forallb _ l); [|intros [= <-]; auto].
  destruct (length l =? 4)%nat; [discriminate|intros [= <-]; auto].
Qed.

(** [bytes(...)] comes first: an item that is no byte is reported before
    the length of the buffer is looked at. *)
Lemma struct_unpack_I_not_bytes l :
  ~ Forall is_byte l -> struct_unpack_I l = Raise ValueError_bytes_range.
Proof.
  intros Hn. unfold struct_unpack_I, to_bytes.
  destruct (forallb _ l) eqn:E; [|reflexivity].
  exfalso. apply Hn. apply Forall_forall. intros x Hx.
  rewrite forallb_forall in E. apply list_elem_of_In, E in Hx.
  apply andb_true_iff in Hx as [H1 H2].
  apply Z.leb_le in H1. apply Z.ltb_lt in H2. unfold is_byte. lia.
Qed.

Lemma getitem_take (l : list Z) n i : (i < n)%nat -> getitem (take n l) i = getitem l i.
Proof. intros H. unfold getitem. rewrite lookup_take_lt by exact H. reflexivity. Qed.

Lemma slice_take (l : list Z) n i j :
  (i <= j <= n)%nat -> slice (take n l) i j = slice l i j.
Proof.
  intros H. unfold slice. rewrite !take_drop_commute, take_take.
  replace ((i + (j - i)) `min` n)%nat with (i + (j - i))%nat by lia.
  reflexivity.
Qed.

Section ParseMore.

Variable file_type_value : DESFireFileType -> Z.
Variable communication_mode_value : DESFireCommunicationMode -> Z.
Variable FilePermissions : Type.
Variable FilePermissions_init : FilePermissions.
Variable FilePermissions_parse :
  FilePermissions -> list Z -> FilePermissions * result unit.

Local Abbreviation FT_call := (DESFireFileType_call file_type_value).
Local Abbreviation CM_call :=
  (DESFireCommunicationMode_call communication_mode_value).
Local Abbreviation run :=
  (parse file_type_value communication_mode_value
     FilePermissions FilePermissions_init FilePermissions_parse).
Local Abbreviation unfold_run :=
  (parse_unfold file_type_value communication_mode_value
     FilePermissions FilePermissions_init FilePermissions_parse).
Local Abbreviation settings := (FileSettings FilePermissions).

(** What a successful [parse] has read and assigned. *)
Lemma parse_Ok_inv data st st' :
  run data st = (st', Ok tt) ->
  exists d0 d1 ft cm p,
    data !! 0%nat = Some d0 /\ FT_call d0 = Ok ft
    /\ data !! 1%nat = Some d1 /\ CM_call d1 = Ok cm
    /\ FilePermissions_parse FilePermissions_init (slice data 2 4) = (p, Ok tt)
    /\ match layout_of ft with
       | DataFile =>
           exists n,
             struct_unpack_I (slice data 4 7 ++ [0x00]) = Ok n
             /\ st' = set_file_size n (header_state ft cm p st)
       | ValueFile =>
           exists lo hi lc d16,
             struct_unpack_I (slice data 4 8) = Ok lo
             /\ struct_unpack_I (slice data 8 12) = Ok hi
             /\ struct_unpack_I (slice data 12 16) = Ok lc
             /\ data !! 16%nat = Some d16
             /\ st' = set_limited_credit_enabled (truthy d16)
                        (set_limited_credit_value lc
                           (set_upper_limit hi
                              (set_lower_limit lo (header_state ft cm p st))))
       | RecordFile =>
           exists n m c,
             struct_unpack_I (slice data 4 7 ++ [0x00]) = Ok n
             /\ struct_unpack_I (slice data 7 10 ++ [0x00]) = Ok m
             /\ struct_unpack_I (slice data 10 13 ++ [0x00]) = Ok c
             /\ st' = set_record_count c
                        (set_max_record_count m
                           (set_file_size n (header_state ft cm p st)))
       | Undecoded => False
       end.
Proof.
  rewrite unfold_run.
  destruct (getitem data 0) as [d0|] eqn:G0; [|discriminate].
  destruct (FT_call d0) as [ft|] eqn:Hft; [|discriminate].
  destruct (getitem data 1) as [d1|] eqn:G1; [|discriminate].
  destruct (CM_call d1) as [cm|] eqn:Hcm; [|discriminate].
  destruct (FilePermissions_parse _ _) as [p [[]|e]] eqn:Hp; [|discriminate].
  rewrite (dispatch_call _ d0 ft Hft). cbv zeta. intros H.
  exists d0, d1, ft, cm, p.
  repeat (split; [auto using getitem_Ok_inv|]).
  destruct (layout_of ft).
  - destruct (struct_unpack_I _) as [n|]; [|discriminate].
    injection H as <-. exists n. split; reflexivity.
  - destruct (struct_unpack_I (slice data 4 8)) as [lo|]; [|discriminate].
    destruct (struct_unpack_I (slice data 8 12)) as [hi|]; [|discriminate].
    destruct (struct_unpack_I (slice data 12 16)) as [lc|]; [|discriminate].
    destruct (getitem data 16) as [d16|] eqn:G16; [|discriminate].
    injection H as <-. exists lo, hi, lc, d16.
    repeat (split; [reflexivity|]). split; [apply getitem_Ok_inv, G16|reflexivity].
  - destruct (struct_unpack_I (slice data 4 7 ++ [0x00])) as [n|]; [|discriminate].
    destruct (struct_unpack_I (slice data 7 10 ++ [0x00])) as [m|]; [|discriminate].
    destruct (struct_unpack_I (slice data 10 13 ++ [0x00])) as [c|]; [|discriminate].
    injection H as <-. exists n, m, c. repeat (split; [reflexivity|]). reflexivity.
  - discriminate.
Qed.

(** X8. For a buffer of at least 13 bytes whose byte 0 selects the linear
    or the cyclic record file (byte 1 and the permission bytes decoding),
    [parse] succeeds; the object then holds in [file_size],
    [max_record_count] and [record_count] the unsigned little-endian 24-bit
    values of bytes 4-6, 7-9 and 10-12, that is b0 + 256 b1 + 65536 b2 of
    the three bytes found there; the header attributes are set and the
    value-file attributes are as before. *)
Theorem parse_record_file st data d0 d1 ft cm p :
  (13 <= length data)%nat ->
  Forall is_byte data ->
  data !! 0%nat = Some d0 ->
  FT_call d0 = Ok ft ->
  ft = MDFT_LINEAR_RECORD_FILE_WITH_BACKUP
  \/ ft = MDFT_CYCLIC_RECORD_FILE_WITH_BACKUP ->
  data !! 1%nat = Some d1 ->
  CM_call d1 = Ok cm ->
  FilePermissions_parse FilePermissions_init (slice data 2 4) = (p, Ok tt) ->
  run data st
  = (set_record_count (le24_at data 10)
       (set_max_record_count (le24_at data 7)
          (set_file_size (le24_at data 4) (header_state ft cm p st))), Ok tt)
  /\ snd (run data st) = Ok tt
  /\ file_size (fst (run data st)) = le24_at data 4
  /\ max_record_count (fst (run data st)) = le24_at data 7
  /\ record_count (fst (run data st)) = le24_at data 10
  /\ file_type (fst (run data st)) = Some ft
  /\ encryption (fst (run data st)) = Some cm
  /\ permissions (fst (run data st)) = Some p
  /\ lower_limit (fst (run data st)) = lower_limit st
  /\ upper_limit (fst (run data st)) = upper_limit st
  /\ value (fst (run data st)) = value st
  /\ limited_credit_value (fst (run data st)) = limited_credit_value st
  /\ limited_credit_enabled (fst (run data st)) = limited_credit_enabled st
  /\ (forall i b0 b1 b2,
        data !! i = Some b0 -> data !! S i = Some b1 ->
        data !! S (S i) = Some b2 ->
        le24_at data i = b0 + 256 * b1 + 65536 * b2).
Proof.
  intros Hlen Hb H0 Hft Hsel H1 Hcm Hp.
  assert (Hrun : run data st
    = (set_record_count (le24_at data 10)
         (set_max_record_count (le24_at data 7)
            (set_file_size (le24_at data 4) (header_state ft cm p st))), Ok tt)).
  { rewrite unfold_run, (getitem_lookup _ _ _ H0), Hft,
      (getitem_lookup _ _ _ H1), Hcm, Hp, (dispatch_call _ d0 ft Hft).
    cbv zeta.
    rewrite (unpack_le24 data 4 7), (unpack_le24 data 7 10),
      (unpack_le24 data 10 13) by (auto; lia).
    destruct Hsel as [-> | ->]; reflexivity. }
  rewrite Hrun. simpl fst. simpl snd.
  do 13 (split; [reflexivity|]).
  intros i b0 b1 b2. apply le24_at_lookup.
Qed.

(** X9. Whether [parse] succeeds, and what it raises, does not depend on
    what the object held before. *)
Theorem parse_outcome_independent data st1 st2 :
  snd (parse file_type_value communication_mode_value FilePermissions
         FilePermissions_init FilePermissions_parse data st1)
  = snd (parse file_type_value communication_mode_value FilePermissions
           FilePermissions_init FilePermissions_parse data st2).
Proof.
  rewrite !unfold_run.
  destruct (getitem data 0) as [d0|]; [|reflexivity].
  destruct (FT_call d0) as [ft|]; [|reflexivity].
  destruct (getitem data 1) as [d1|]; [|reflexivity].
  destruct (CM_call d1) as [cm|]; [|reflexivity].
  destruct (FilePermissions_parse _ _) as [p [[]|e]]; [|reflexivity].
  cbv zeta. destruct (dispatch file_type_value ft).
  - destruct (struct_unpack_I _); reflexivity.
  - destruct (struct_unpack_I (slice data 4 8)); [|reflexivity].
    destruct (struct_unpack_I (slice data 8 12)); [|reflexivity].
    destruct (struct_unpack_I (slice data 12 16)); [|reflexivity].
    destruct (getitem data 16); reflexivity.
  - destruct (struct_unpack_I (slice data 4 7 ++ [0x00])); [|reflexivity].
    destruct (struct_unpack_I (slice data 7 10 ++ [0x00])); [|reflexivity].
    destruct (struct_unpack_I (slice data 10 13 ++ [0x00])); reflexivity.
  - reflexivity.
Qed.

(** X10. Parsing the same buffer again into the object it was parsed into
    changes nothing: the same attributes are assigned the same values, and
    the same exception, if any, is raised. *)
Theorem parse_idempotent data st :
  parse file_type_value communication_mode_value FilePermissions
    FilePermissions_init FilePermissions_parse data
    (fst (parse file_type_value communication_mode_value FilePermissions
            FilePermissions_init FilePermissions_parse data st))
  = parse file_type_value communication_mode_value FilePermissions
      FilePermissions_init FilePermissions_parse data st.
Proof.
  rewrite (unfold_run data (fst _)), !unfold_run.
  destruct (getitem data 0) as [d0|]; [|reflexivity].
  destruct (FT_call d0) as [ft|]; [|reflexivity].
  destruct (getitem data 1) as [d1|]; [|reflexivity].
  destruct (CM_call d1) as [cm|]; [|reflexivity].
  destruct (FilePermissions_parse _ _) as [p [[]|e]]; [|reflexivity].
  cbv zeta. destruct (dispatch file_type_value ft).
  - destruct (struct_unpack_I _); reflexivity.
  - destruct (struct_unpack_I (slice data 4 8)); [|reflexivity].
    destruct (struct_unpack_I (slice data 8 12)); [|reflexivity].
    destruct (struct_unpack_I (slice data 12 16)); [|reflexivity].
    destruct (getitem data 16); reflexivity.
  - destruct (struct_unpack_I (slice data 4 7 ++ [0x00])); [|reflexivity].
    destruct (struct_unpack_I (slice data 7 10 ++ [0x00])); [|reflexivity].
    destruct (struct_unpack_I (slice data 10 13 ++ [0x00])); reflexivity.
  - reflexivity.
Qed.

(** X11. A successful [parse] leaves the attributes of the other file
    types as they were: [value] is never assigned, a data file keeps the
    value-file and record-file attributes, a value file keeps [file_size]
    and the record counts, a record file keeps the value-file attributes. *)
Theorem parse_keeps_other_fields data st st' :
  run data st = (st', Ok tt) ->
  exists ft,
    file_type st' = Some ft
    /\ value st' = value st
    /\ match layout_of ft with
       | DataFile =>
           lower_limit st' = lower_limit st
           /\ upper_limit st' = upper_limit st
           /\ limited_credit_value st' = limited_credit_value st
           /\ limited_credit_enabled st' = limited_credit_enabled st
           /\ record_count st' = record_count st
           /\ max_record_count st' = max_record_count st
       | ValueFile =>
           file_size st' = file_size st
           /\ record_count st' = record_count st
           /\ max_record_count st' = max_record_count st
       | RecordFile =>
           lower_limit st' = lower_limit st
           /\ upper_limit st' = upper_limit st
           /\ limited_credit_value st' = limited_credit_value st
           /\ limited_credit_enabled st' = limited_credit_enabled st
       | Undecoded => False
       end.
Proof.
  intros H.
  destruct (parse_Ok_inv data st st' H)
    as (d0 & d1 & ft & cm & p & _ & _ & _ & _ & _ & Hl).
  exists ft. destruct (layout_of ft).
  - destruct Hl as (n & _ & ->). simpl. auto 10.
  - destruct Hl as (lo & hi & lc & d16 & _ & _ & _ & _ & ->). simpl. auto 10.
  - destruct Hl as (n & m & c & _ & _ & _ & ->). simpl. auto 10.
  - destruct Hl.
Qed.

(** X12. After a successful [parse] the three header attributes are set,
    the file type is one of the five decoded ones, and the members held
    have the values of bytes 0 and 1. *)
Theorem parse_header_populated data st st' :
  run data st = (st', Ok tt) ->
  exists d0 d1 ft cm p,
    data !! 0%nat = Some d0 /\ data !! 1%nat = Some d1
    /\ file_type st' = Some ft /\ file_type_value ft = d0
    /\ In ft supported_file_types
    /\ encryption st' = Some cm /\ communication_mode_value cm = d1
    /\ permissions st' = Some p
    /\ FilePermissions_parse FilePermissions_init (slice data 2 4) = (p, Ok tt).
Proof.
  intros H.
  destruct (parse_Ok_inv data st st' H)
    as (d0 & d1 & ft & cm & p & H0 & Hft & H1 & Hcm & Hp & Hl).
  exists d0, d1, ft, cm, p.
  apply Enum_call_Ok in Hft as [Hv _]. apply Enum_call_Ok in Hcm as [Hc _].
  assert (Hst : file_type st' = Some ft /\ encryption st' = Some cm
                /\ permissions st' = Some p).
  { destruct (layout_of ft).
    - destruct Hl as (n & _ & ->). simpl. auto.
    - destruct Hl as (lo & hi & lc & d16 & _ & _ & _ & _ & ->). simpl. auto.
    - destruct Hl as (n & m & c & _ & _ & _ & ->). simpl. auto.
    - destruct Hl. }
  destruct Hst as (S1 & S2 & S3).
  repeat (split; [assumption|]).
  split; [|auto].
  destruct ft; simpl in Hl; try destruct Hl; simpl; tauto.
Qed.

(** X13. [parse] reads no further than the length its variant needs, and
    never past byte 16: cutting the buffer there changes neither the
    object nor the outcome. *)
Theorem parse_reads_prefix st data n :
  (17 <= n)%nat
  \/ (exists d0 ft, data !! 0%nat = Some d0 /\ FT_call d0 = Ok ft
                    /\ required_length ft = Some n) ->
  run (take n data) st = run data st.
Proof.
  intros Hn.
  assert (H4 : (7 <= n)%nat).
  { destruct Hn as [?|(d0 & ft & _ & _ & Hr)]; [lia|].
    destruct ft; simpl in Hr; try discriminate; injection Hr as <-; lia. }
  rewrite (unfold_run (take n data)), (unfold_run data).
  rewrite !(getitem_take data n) by lia.
  rewrite (slice_take data n 2 4), (slice_take data n 4 7) by lia.
  destruct (getitem data 0) as [d0|] eqn:G0; [|reflexivity].
  destruct (FT_call d0) as [ft|] eqn:Hft; [|reflexivity].
  destruct (getitem data 1) as [d1|]; [|reflexivity].
  destruct (CM_call d1) as [cm|]; [|reflexivity].
  destruct (FilePermissions_parse _ _) as [p [[]|e]]; [|reflexivity].
  rewrite (dispatch_call _ d0 ft Hft). cbv zeta.
  assert (Hreq : forall k, required_length ft = Some k -> (k <= n)%nat).
  { intros k Hk. destruct Hn as [?|(d0' & ft' & G0' & Hft' & Hr)].
    - destruct ft; simpl in Hk; try discriminate; injection Hk as <-; lia.
    - apply getitem_lookup in G0'. rewrite G0' in G0. injection G0 as ->.
      rewrite Hft' in Hft. injection Hft as ->.
      rewrite Hr in Hk. injection Hk as ->. lia. }
  destruct ft; simpl layout_of; try reflexivity.
  - pose proof (Hreq _ eq_refl).
    rewrite (slice_take data n 4 8), (slice_take data n 8 12),
      (slice_take data n 12 16), (getitem_take data n 16) by lia.
    reflexivity.
  - pose proof (Hreq _ eq_refl).
    rewrite (slice_take data n 7 10), (slice_take data n 10 13) by lia.
    reflexivity.
  - pose proof (Hreq _ eq_refl).
    rewrite (slice_take data n 7 10), (slice_take data n 10 13) by lia.
    reflexivity.
Qed.

(** X14. In a data file, an item at offsets 4-6 that is not in 0..255 makes
    [parse] raise the [ValueError] of [bytes(...)], whatever the length of
    the buffer, with the header assigned and [file_size] untouched. *)
Theorem parse_data_file_not_bytes st data d0 d1 ft cm p :
  data !! 0%nat = Some d0 ->
  FT_call d0 = Ok ft ->
  ft = MDFT_STANDARD_DATA_FILE \/ ft = MDFT_BACKUP_DATA_FILE ->
  data !! 1%nat = Some d1 ->
  CM_call d1 = Ok cm ->
  FilePermissions_parse FilePermissions_init (slice data 2 4) = (p, Ok tt) ->
  ~ Forall is_byte (slice data 4 7) ->
  run data st = (header_state ft cm p st, Raise ValueError_bytes_range).
Proof.
  intros H0 Hft Hsel H1 Hcm Hp Hnb.
  rewrite unfold_run, (getitem_lookup _ _ _ H0), Hft,
    (getitem_lookup _ _ _ H1), Hcm, Hp, (dispatch_call _ d0 ft Hft).
  cbv zeta.
  rewrite struct_unpack_I_not_bytes.
  - destruct Hsel as [-> | ->]; reflexivity.
  - intros Hf. apply Hnb. apply Forall_app in Hf as [Hf _]. exact Hf.
Qed.

(** X15. With a header that decodes and a buffer of bytes, [parse] of a
    decoded file type succeeds exactly when the buffer has the length the
    variant needs: 7, 17 or 13 bytes at least. *)
Theorem parse_succeeds_iff_long_enough st data d0 d1 ft cm p n :
  Forall is_byte data ->
  data !! 0%nat = Some d0 ->
  FT_call d0 = Ok ft ->
  required_length ft = Some n ->
  data !! 1%nat = Some d1 ->
  CM_call d1 = Ok cm ->
  FilePermissions_parse FilePermissions_init (slice data 2 4) = (p, Ok tt) ->
  snd (run data st) = Ok tt <-> (n <= length data)%nat.
Proof.
  intros Hb H0 Hft Hn H1 Hcm Hp.
  split.
  - intros Hok.
    destruct (run data st) as [st' r] eqn:Hrun. simpl in Hok. subst r.
    destruct (parse_Ok_inv data st st' Hrun)
      as (d0' & d1' & ft' & cm' & p' & H0' & Hft' & _ & _ & _ & Hl).
    rewrite H0 in H0'. injection H0' as <-.
    rewrite Hft in Hft'. injection Hft' as <-.
    destruct ft; simpl in Hn; try discriminate; injection Hn as <-;
      simpl in Hl.
    1,2: destruct Hl as (v & Hv & _); apply struct_unpack_I_length in Hv;
         rewrite length_slice_pad in Hv; lia.
    + destruct Hl as (lo & hi & lc & d16 & _ & _ & _ & H16 & _).
      apply lookup_lt_Some in H16. lia.
    + destruct Hl as (a & b & c & _ & _ & Hc & _).
      apply struct_unpack_I_length in Hc.
      rewrite length_slice_pad in Hc. lia.
    + destruct Hl as (a & b & c & _ & _ & Hc & _).
      apply struct_unpack_I_length in Hc.
      rewrite length_slice_pad in Hc. lia.
  - intros Hlen.
    rewrite unfold_run, (getitem_lookup _ _ _ H0), Hft,
      (getitem_lookup _ _ _ H1), Hcm, Hp, (dispatch_call _ d0 ft Hft).
    cbv zeta.
    destruct ft; simpl in Hn; try discriminate; injection Hn as <-;
      simpl layout_of.
    1,2: rewrite (unpack_le24 data 4 7) by (auto; lia); reflexivity.
    + rewrite (unpack_le32 data 4 8), (unpack_le32 data 8 12),
        (unpack_le32 data 12 16) by (auto; lia).
      destruct (lookup_lt_is_Some_2 data 16) as [d16 H16]; [lia|].
      rewrite (getitem_lookup _ _ _ H16). reflexivity.
    + rewrite (unpack_le24 data 4 7), (unpack_le24 data 7 10),
        (unpack_le24 data 10 13) by (auto; lia). reflexivity.
    + rewrite (unpack_le24 data 4 7), (unpack_le24 data 7 10),
        (unpack_le24 data 10 13) by (auto; lia). reflexivity.
Qed.

(** X16. Whatever [parse] raises is an [IndexError], the [ValueError] of an
    enum call or of [bytes(...)], a [struct.error], the
    [NotImplementedError] naming byte 0, or the exception the permission
    parser raised on bytes 2-3. *)
Theorem parse_raises_only data st st' e :
  run data st = (st', Raise e) ->
  e = IndexError
  \/ (exists cls v, e = ValueError_not_a_valid cls v)
  \/ e = ValueError_bytes_range
  \/ e = struct_error
  \/ (exists d0, data !! 0%nat = Some d0 /\ e = NotImplementedError_Filetype d0)
  \/ (exists p,
        FilePermissions_parse FilePermissions_init (slice data 2 4)
        = (p, Raise e)).
Proof.
  assert (U : forall l e0, struct_unpack_I l = Raise e0 ->
                e0 = IndexError
                \/ (exists cls v, e0 = ValueError_not_a_valid cls v)
                \/ e0 = ValueError_bytes_range
                \/ e0 = struct_error
                \/ (exists d0, data !! 0%nat = Some d0
                               /\ e0 = NotImplementedError_Filetype d0)
                \/ (exists p,
                      FilePermissions_parse FilePermissions_init (slice data 2 4)
                      = (p, Raise e0))).
  { intros l e0 Hu. apply struct_unpack_I_Raise_inv in Hu as [->| ->]; auto. }
  assert (G : forall i e0, getitem data i = Raise e0 -> e0 = IndexError).
  { intros i e0 Hg. apply getitem_Raise_inv in Hg as [-> _]. reflexivity. }
  assert (C : forall (E : Type) cls (ms : list E) val v e0,
            Enum_call cls ms val v = Raise e0 ->
            exists c w, e0 = ValueError_not_a_valid c w).
  { intros E cls ms val v e0 Hc. apply Enum_call_Raise in Hc as [-> _]. eauto. }
  rewrite unfold_run.
  destruct (getitem data 0) as [d0|] eqn:G0;
    [|intros [= _ <-]; left; eapply G; eauto].
  destruct (FT_call d0) as [ft|] eqn:Hft;
    [|intros [= _ <-]; right; left; eapply C; eauto].
  destruct (getitem data 1) as [d1|] eqn:G1;
    [|intros [= _ <-]; left; eapply G; eauto].
  destruct (CM_call d1) as [cm|] eqn:Hcm;
    [|intros [= _ <-]; right; left; eapply C; eauto].
  destruct (FilePermissions_parse _ _) as [p [[]|e']] eqn:Hp;
    [|intros [= _ <-]; do 5 right; eauto].
  cbv zeta. destruct (dispatch file_type_value ft).
  - destruct (struct_unpack_I _) eqn:E1; [discriminate|].
    intros [= _ <-]. eapply U; eauto.
  - destruct (struct_unpack_I (slice data 4 8)) eqn:E1;
      [|intros [= _ <-]; eapply U; eauto].
    destruct (struct_unpack_I (slice data 8 12)) eqn:E2;
      [|intros [= _ <-]; eapply U; eauto].
    destruct (struct_unpack_I (slice data 12 16)) eqn:E3;
      [|intros [= _ <-]; eapply U; eauto].
    destruct (getitem data 16) eqn:G16; [discriminate|].
    intros [= _ <-]. left. eapply G; eauto.
  - destruct (struct_unpack_I (slice data 4 7 ++ [0x00])) eqn:E1;
      [|intros [= _ <-]; eapply U; eauto].
    destruct (struct_unpack_I (slice data 7 10 ++ [0x00])) eqn:E2;
      [|intros [= _ <-]; eapply U; eauto].
    destruct (struct_unpack_I (slice data 10 13 ++ [0x00])) eqn:E3;
      [discriminate|].
    intros [= _ <-]. eapply U; eauto.
  - intros [= _ <-]. do 4 right. left. exists d0.
    split; [apply getitem_Ok_inv, G0|reflexivity].
Qed.

End ParseMore.

(** * Properties of [FileSettings.__repr__] *)

Lemma append_assoc (a b c : string) :
  append a (append b c) = append (append a b) c.
Proof. induction a as [|x a IH]; simpl; [reflexivity|]. rewrite IH. reflexivity. Qed.

Lemma append_nil_r (a : string) : append a EmptyString = a.
Proof. induction a as [|x a IH]; simpl; [reflexivity|]. rewrite IH. reflexivity. Qed.

Section ReprFacts.

Variable file_type_value : DESFireFileType -> Z.
Variable communication_mode_value : DESFireCommunicationMode -> Z.
Variable file_type_name : DESFireFileType -> string.
Variable communication_mode_name : DESFireCommunicationMode -> string.
Variable FilePermissions : Type.
Variable FilePermissions_init : FilePermissions.
Variable FilePermissions_parse :
  FilePermissions -> list Z -> FilePermissions * result unit.
Variable FilePermissions_repr : FilePermissions -> result string.

Local Abbreviation FT_call := (DESFireFileType_call file_type_value).
Local Abbreviation CM_call :=
  (DESFireCommunicationMode_call communication_mode_value).
Local Abbreviation run :=
  (parse file_type_value communication_mode_value
     FilePermissions FilePermissions_init FilePermissions_parse).
Local Abbreviation unfold_run :=
  (parse_unfold file_type_value communication_mode_value
     FilePermissions FilePermissions_init FilePermissions_parse).
Local Abbreviation show :=
  (FileSettings_repr file_type_value file_type_name communication_mode_name
     FilePermissions FilePermissions_repr).

(** [__repr__] on an object whose header attributes are set: the header
    lines, then the lines of the layout that the comparisons select. *)
Lemma repr_Some (st : FileSettings FilePermissions) ft cm p perms :
  file_type st = Some ft ->
  encryption st = Some cm ->
  permissions st = Some p ->
  FilePermissions_repr p = Ok perms ->
  show st
  = Ok (let hdr :=
          repr_header (file_type_name ft) (communication_mode_name cm) perms in
        match dispatch file_type_value ft with
        | DataFile => append hdr (line "File size: " (str_int (file_size st)))
        | ValueFile =>
            append
              (append
                 (append
                    (append
                       (append hdr
                          (line "Lower limit: " (str_int (lower_limit st))))
                       (line "Upper limit: " (str_int (upper_limit st))))
                    (line "Initial value: " (str_int (value st))))
                 (line "Limited credit value: "
                    (str_int (limited_credit_value st))))
              (line "Limited credit enabled: "
                 (str_bool (limited_credit_enabled st)))
        | RecordFile =>
            append
              (append
                 (append hdr (line "Record size: " (str_int (file_size st))))
                 (line "Current record count: " (str_int (record_count st))))
              (line "Max record count: " (str_int (max_record_count st)))
        | Undecoded => hdr
        end).
Proof.
  intros Hft Hcm Hp Hr.
  unfold FileSettings_repr, file_type_eq, repr_permissions, name_of, dispatch,
    repr_header.
  rewrite Hft, Hcm, Hp, Hr. cbv zeta.
  destruct (Enum_eq file_type_value ft MDFT_STANDARD_DATA_FILE),
    (Enum_eq file_type_value ft MDFT_BACKUP_DATA_FILE),
    (Enum_eq file_type_value ft MDFT_VALUE_FILE_WITH_BACKUP),
    (Enum_eq file_type_value ft MDFT_CYCLIC_RECORD_FILE_WITH_BACKUP),
    (Enum_eq file_type_value ft MDFT_LINEAR_RECORD_FILE_WITH_BACKUP);
    reflexivity.
Qed.

(** X17. Printing needs the header: when [parse] of a new object stops
    before the communication mode is assigned (no byte 0 or 1, or one of
    them the value of no member), [__repr__] of that object raises
    [AttributeError]; so does [__repr__] of an object never parsed. *)
Theorem repr_needs_header data :
  ~ (exists d0 d1 ft cm,
        data !! 0%nat = Some d0 /\ FT_call d0 = Ok ft
        /\ data !! 1%nat = Some d1 /\ CM_call d1 = Ok cm) ->
  show (fst (run data FileSettings_init)) = Raise (ForeignError "AttributeError")
  /\ show FileSettings_init = Raise (ForeignError "AttributeError").
Proof.
  intros Hno. split; [|reflexivity].
  rewrite unfold_run.
  destruct (getitem data 0) as [d0|] eqn:G0; [|reflexivity].
  destruct (FT_call d0) as [ft|] eqn:Hft; [|reflexivity].
  destruct (getitem data 1) as [d1|] eqn:G1; [|reflexivity].
  destruct (CM_call d1) as [cm|] eqn:Hcm; [|reflexivity].
  exfalso. apply Hno. exists d0, d1, ft, cm.
  auto using getitem_Ok_inv.
Qed.

(** X18. After a successful [parse], [__repr__] returns a text whenever the
    permissions print: the banner line, then "File type: ", "Encryption: "
    and "Permissions: " lines naming the members whose values are bytes 0
    and 1 and the permissions parsed from bytes 2-3, then the lines of the
    decoded file type, each line ended by carriage return and line feed. *)
Theorem repr_after_parse data st st' :
  run data st = (st', Ok tt) ->
  (forall p, exists perms, FilePermissions_repr p = Ok perms) ->
  let eol := String "013"%char (String "010"%char EmptyString) in
  exists d0 d1 ft cm p perms rest,
    data !! 0%nat = Some d0 /\ file_type_value ft = d0
    /\ file_type st' = Some ft
    /\ data !! 1%nat = Some d1 /\ communication_mode_value cm = d1
    /\ encryption st' = Some cm
    /\ FilePermissions_parse FilePermissions_init (slice data 2 4) = (p, Ok tt)
    /\ permissions st' = Some p
    /\ FilePermissions_repr p = Ok perms
    /\ show st'
       = Ok (" ----- FileSettings ----" ++ eol
             ++ "File type: " ++ file_type_name ft ++ eol
             ++ "Encryption: " ++ communication_mode_name cm ++ eol
             ++ "Permissions: " ++ perms ++ eol
             ++ rest)%string
    /\ match layout_of ft with
       | DataFile =>
           rest = ("File size: " ++ str_int (file_size st') ++ eol)%string
       | ValueFile =>
           rest = ("Lower limit: " ++ str_int (lower_limit st') ++ eol
                   ++ "Upper limit: " ++ str_int (upper_limit st') ++ eol
                   ++ "Initial value: " ++ str_int (value st') ++ eol
                   ++ "Limited credit value: "
                   ++ str_int (limited_credit_value st') ++ eol
                   ++ "Limited credit enabled: "
                   ++ (if limited_credit_enabled st' then "True" else "False")
                   ++ eol)%string
       | RecordFile =>
           rest = ("Record size: " ++ str_int (file_size st') ++ eol
                   ++ "Current record count: "
                   ++ str_int (record_count st') ++ eol
                   ++ "Max record count: "
                   ++ str_int (max_record_count st') ++ eol)%string
       | Undecoded => False
       end.
Proof.
  intros H Hrepr eol.
  destruct (parse_Ok_inv _ _ _ _ _ data st st' H)
    as (d0 & d1 & ft & cm & p & H0 & Hft & H1 & Hcm & Hp & Hl).
  destruct (Hrepr p) as [perms Hperms].
  assert (Hst : file_type st' = Some ft /\ encryption st' = Some cm
                /\ permissions st' = Some p).
  { destruct (layout_of ft).
    - destruct Hl as (n & _ & ->). simpl. auto.
    - destruct Hl as (lo & hi & lc & d16 & _ & _ & _ & _ & ->). simpl. auto.
    - destruct Hl as (n & m & c & _ & _ & _ & ->). simpl. auto.
    - destruct Hl. }
  destruct Hst as (S1 & S2 & S3).
  pose proof (Enum_call_Ok _ _ _ _ _ Hft) as [Hv _].
  pose proof (Enum_call_Ok _ _ _ _ _ Hcm) as [Hc _].
  exists d0, d1, ft, cm, p, perms.
  rewrite (repr_Some st' ft cm p perms S1 S2 S3 Hperms). cbv zeta.
  rewrite (dispatch_call _ d0 ft Hft).
  destruct (layout_of ft).
  - eexists. do 9 (split; [eassumption|]). split; [|reflexivity].
    unfold repr_header, line, CRLF, eol. rewrite <- !append_assoc. reflexivity.
  - eexists. do 9 (split; [eassumption|]). split; [|reflexivity].
    unfold repr_header, line, CRLF, str_bool, eol.
    rewrite <- !append_assoc. reflexivity.
  - eexists. do 9 (split; [eassumption|]). split; [|reflexivity].
    unfold repr_header, line, CRLF, eol. rewrite <- !append_assoc. reflexivity.
  - destruct Hl.
Qed.

(** X19. [parse] then [__repr__] on a value file: after the header lines
    come "Lower limit: ", "Upper limit: " and "Limited credit value: " with
    the three values read from the buffer and "Limited credit enabled: "
    with True or False for byte 16, but the line "Initial value: " shows
    what the object held before, since [parse] never assigns [value]. *)
Theorem repr_after_parse_value_file st data d0 d1 d16 cm p perms :
  (17 <= length data)%nat ->
  Forall is_byte data ->
  data !! 0%nat = Some d0 ->
  FT_call d0 = Ok MDFT_VALUE_FILE_WITH_BACKUP ->
  data !! 1%nat = Some d1 ->
  CM_call d1 = Ok cm ->
  FilePermissions_parse FilePermissions_init (slice data 2 4) = (p, Ok tt) ->
  data !! 16%nat = Some d16 ->
  FilePermissions_repr p = Ok perms ->
  let eol := String "013"%char (String "010"%char EmptyString) in
  show (fst (run data st))
  = Ok (" ----- FileSettings ----" ++ eol
        ++ "File type: " ++ file_type_name MDFT_VALUE_FILE_WITH_BACKUP ++ eol
        ++ "Encryption: " ++ communication_mode_name cm ++ eol
        ++ "Permissions: " ++ perms ++ eol
        ++ "Lower limit: " ++ str_int (le32_at data 4) ++ eol
        ++ "Upper limit: " ++ str_int (le32_at data 8) ++ eol
        ++ "Initial value: " ++ str_int (value st) ++ eol
        ++ "Limited credit value: " ++ str_int (le32_at data 12) ++ eol
        ++ "Limited credit enabled: "
        ++ (if (d16 =? 0)%Z then "False" else "True") ++ eol)%string.
Proof.
  intros Hlen Hb H0 Hft H1 Hcm Hp H16 Hperms eol.
  rewrite unfold_run, (getitem_lookup _ _ _ H0), Hft,
    (getitem_lookup _ _ _ H1), Hcm, Hp, (dispatch_call _ d0 _ Hft).
  simpl layout_of. cbv zeta.
  rewrite (unpack_le32 data 4 8), (unpack_le32 data 8 12),
    (unpack_le32 data 12 16) by (auto; lia).
  rewrite (getitem_lookup _ _ _ H16). simpl fst.
  rewrite repr_Some with (ft := MDFT_VALUE_FILE_WITH_BACKUP) (cm := cm)
                         (p := p) (perms := perms);
    [|reflexivity|reflexivity|reflexivity|exact Hperms].
  rewrite (dispatch_call _ d0 _ Hft). simpl layout_of. cbv zeta.
  unfold repr_header, line, CRLF, str_bool, truthy, eol.
  cbn [lower_limit upper_limit value limited_credit_value
       limited_credit_enabled set_limited_credit_enabled
       set_limited_credit_value set_upper_limit set_lower_limit
       header_state set_permissions set_encryption set_file_type].
  rewrite <- !append_assoc.
  destruct (d16 =? 0); reflexivity.
Qed.

(** X20. A buffer of the transaction-MAC file makes [parse] raise once the
    header is assigned, and the object then prints as the banner and the
    "File type: ", "Encryption: " and "Permissions: " lines, and nothing
    after them. *)
Theorem repr_after_unsupported st data d0 d1 cm p perms :
  data !! 0%nat = Some d0 ->
  FT_call d0 = Ok MDFT_TRANSACTION_MAC_FILE ->
  data !! 1%nat = Some d1 ->
  CM_call d1 = Ok cm ->
  FilePermissions_parse FilePermissions_init (slice data 2 4) = (p, Ok tt) ->
  FilePermissions_repr p = Ok perms ->
  let eol := String "013"%char (String "010"%char EmptyString) in
  snd (run data st) = Raise (NotImplementedError_Filetype d0)
  /\ show (fst (run data st))
     = Ok (" ----- FileSettings ----" ++ eol
           ++ "File type: " ++ file_type_name MDFT_TRANSACTION_MAC_FILE ++ eol
           ++ "Encryption: " ++ communication_mode_name cm ++ eol
           ++ "Permissions: " ++ perms ++ eol)%string.
Proof.
  intros H0 Hft H1 Hcm Hp Hperms eol.
  rewrite unfold_run, (getitem_lookup _ _ _ H0), Hft,
    (getitem_lookup _ _ _ H1), Hcm, Hp, (dispatch_call _ d0 _ Hft).
  simpl layout_of. cbv zeta. split; [reflexivity|]. simpl fst.
  rewrite repr_Some with (ft := MDFT_TRANSACTION_MAC_FILE) (cm := cm)
                         (p := p) (perms := perms);
    [|reflexivity|reflexivity|reflexivity|exact Hperms].
  rewrite (dispatch_call _ d0 _ Hft). simpl layout_of. cbv zeta.
  unfold repr_header, line, CRLF, eol. rewrite <- !append_assoc. reflexivity.
Qed.

End ReprFacts.

(** * The further properties on the card profile *)

Lemma transceive_transmit_failure_witness :
  snd (transceive Profile.translateprotocolheader
         (fun _ _ _ => (6, [0xAA; 0x91; 0x00]))
         Profile.SCardGetErrorMessage Profile.connection [0x6A])
  = Raise (CardConnectionException (Failed_to_transmit 2 "error")).
Proof.
  apply (transceive_transmit_failure Profile.translateprotocolheader
           (fun _ _ _ => (6, [0xAA; 0x91; 0x00]))
           Profile.SCardGetErrorMessage Profile.connection [0x6A] 1
           [0x90; 0x6A; 0x00; 0x00; 0] 6 [0xAA; 0x91; 0x00]
           eq_refl eq_refl eq_refl).
  lia.
Defined.

Lemma transceive_raises_only_witness :
  (CardConnectionException (Invalid_response_length 1) = DESFireException_non_open
   /\ hcard_truthy Profile.connection = None)
  \/ (CardConnectionException (Invalid_response_length 1) = IndexError
      /\ [0x6A] = [])
  \/ exists msg,
       CardConnectionException (Invalid_response_length 1)
       = CardConnectionException msg.
Proof.
  exact (transceive_raises_only Profile.translateprotocolheader
           (Profile.answering [0x00]) Profile.SCardGetErrorMessage
           Profile.connection [0x6A] _ eq_refl).
Defined.

Lemma build_apdu_injective_witness : [0x6A; 0x01] = [0x6A; Z.succ 0].
Proof.
  exact (build_apdu_injective [0x6A; 0x01] [0x6A; Z.succ 0]
           [0x90; 0x6A; 0x00; 0x00; 1; 0x01; 0x00] eq_refl eq_refl).
Defined.

Lemma build_apdu_bytes_witness :
  (Forall is_byte [0x90; 0x6A; 0x00; 0x00; 1; 0x01; 0x00]
   <-> Forall is_byte [0x6A; 0x01] /\ (length [0x6A; 0x01] <= 256)%nat)
  /\ [0x90; 0x6A; 0x00; 0x00; 1; 0x01; 0x00] !! 4%nat = Some (len [0x6A; 0x01] - 1).
Proof.
  exact (build_apdu_bytes [0x6A; 0x01] _ eq_refl).
Defined.

Lemma parse_record_file_witness :
  Profile.decode [0x04; 0x01; 0x00; 0x23; 0x10; 0; 0; 0x00; 0x01; 0; 3; 0; 0]
  = ({| encryption := Some MAC;
        file_type := Some MDFT_CYCLIC_RECORD_FILE_WITH_BACKUP;
        permissions :=
          Some {| Profile.change_access := 0; Profile.read_write_access := 0;
                  Profile.write_access := 3; Profile.read_access := 2 |};
        file_size := 16; lower_limit := 0; upper_limit := 0; value := 0;
        limited_credit_value := 0; limited_credit_enabled := false;
        record_count := 3; max_record_count := 256 |}, Ok tt)
  /\ file_size (fst (Profile.decode
       [0x04; 0x01; 0x00; 0x23; 0x10; 0; 0; 0x00; 0x01; 0; 3; 0; 0])) = 16
  /\ max_record_count (fst (Profile.decode
       [0x04; 0x01; 0x00; 0x23; 0x10; 0; 0; 0x00; 0x01; 0; 3; 0; 0])) = 256
  /\ record_count (fst (Profile.decode
       [0x04; 0x01; 0x00; 0x23; 0x10; 0; 0; 0x00; 0x01; 0; 3; 0; 0])) = 3.
Proof.
  assert (Hlen : (13 <= length
            [0x04; 0x01; 0x00; 0x23; 0x10; 0; 0; 0x00; 0x01; 0; 3; 0; 0])%nat)
    by (simpl; lia).
  assert (Hb : Forall is_byte
            [0x04; 0x01; 0x00; 0x23; 0x10; 0; 0; 0x00; 0x01; 0; 3; 0; 0])
    by (repeat constructor; lia).
  destruct (parse_record_file Profile.file_type_value
              Profile.communication_mode_value
              Profile.FilePermissions Profile.FilePermissions_init
              Profile.FilePermissions_parse FileSettings_init
              [0x04; 0x01; 0x00; 0x23; 0x10; 0; 0; 0x00; 0x01; 0; 3; 0; 0]
              0x04 0x01 MDFT_CYCLIC_RECORD_FILE_WITH_BACKUP MAC _
              Hlen Hb eq_refl eq_refl (or_intror eq_refl) eq_refl eq_refl eq_refl)
    as (Hrun & _ & Hfs & Hmax & Hrc & _).
  split; [exact Hrun|].
  split; [exact Hfs|]. split; [exact Hmax|exact Hrc].
Defined.

(** A value file parsed into an object that a record file was parsed into
    before: the record attributes are still there. *)
Lemma parse_keeps_other_fields_witness :
  record_count
    (fst (ProfileText.decode_into
            (fst (Profile.decode
                    [0x04; 0x01; 0x00; 0x23; 0x10; 0; 0; 0x00; 0x01; 0; 3; 0; 0]))
            [0x02; 0x03; 0x00; 0x23; 1; 0; 0; 0; 2; 1; 0; 0; 3; 0; 0; 1; 0x01]))
  = 3.
Proof.
  destruct (parse_keeps_other_fields Profile.file_type_value
              Profile.communication_mode_value
              Profile.FilePermissions Profile.FilePermissions_init
              Profile.FilePermissions_parse
              [0x02; 0x03; 0x00; 0x23; 1; 0; 0; 0; 2; 1; 0; 0; 3; 0; 0; 1; 0x01]
              (fst (Profile.decode
                      [0x04; 0x01; 0x00; 0x23; 0x10; 0; 0; 0x00; 0x01; 0; 3; 0; 0]))
              _ eq_refl) as (ft & Hft & _ & Hl).
  injection Hft as <-. simpl in Hl. destruct Hl as (_ & Hrc & _).
  exact Hrc.
Defined.

Lemma parse_header_populated_witness :
  exists d0 d1 ft cm p,
    [0x00; 0x03; 0x00; 0x23; 0x08; 0x00; 0x00] !! 0%nat = Some d0
    /\ [0x00; 0x03; 0x00; 0x23; 0x08; 0x00; 0x00] !! 1%nat = Some d1
    /\ file_type (fst (Profile.decode [0x00; 0x03; 0x00; 0x23; 0x08; 0x00; 0x00]))
       = Some ft
    /\ Profile.file_type_value ft = d0
    /\ In ft supported_file_types
    /\ encryption (fst (Profile.decode [0x00; 0x03; 0x00; 0x23; 0x08; 0x00; 0x00]))
       = Some cm
    /\ Profile.communication_mode_value cm = d1
    /\ permissions (fst (Profile.decode [0x00; 0x03; 0x00; 0x23; 0x08; 0x00; 0x00]))
       = Some p
    /\ Profile.FilePermissions_parse Profile.FilePermissions_init
         (slice [0x00; 0x03; 0x00; 0x23; 0x08; 0x00; 0x00] 2 4) = (p, Ok tt).
Proof.
  exact (parse_header_populated Profile.file_type_value
           Profile.communication_mode_value
           Profile.FilePermissions Profile.FilePermissions_init
           Profile.FilePermissions_parse
           [0x00; 0x03; 0x00; 0x23; 0x08; 0x00; 0x00] FileSettings_init _ eq_refl).
Defined.

Lemma parse_reads_prefix_witness :
  Profile.decode (take 7 [0x00; 0x03; 0x00; 0x23; 0x08; 0x00; 0x00; 0xFF; 0xFF])
  = Profile.decode [0x00; 0x03; 0x00; 0x23; 0x08; 0x00; 0x00; 0xFF; 0xFF].
Proof.
  apply (parse_reads_prefix Profile.file_type_value
           Profile.communication_mode_value
           Profile.FilePermissions Profile.FilePermissions_init
           Profile.FilePermissions_parse FileSettings_init
           [0x00; 0x03; 0x00; 0x23; 0x08; 0x00; 0x00; 0xFF; 0xFF] 7).
  right. exists 0x00, MDFT_STANDARD_DATA_FILE.
  split; [reflexivity|]. split; reflexivity.
Defined.

Lemma parse_data_file_not_bytes_witness :
  snd (Profile.decode [0x00; 0x03; 0x00; 0x23; 0x100; 0x00])
  = Raise ValueError_bytes_range.
Proof.
  assert (Hnb : ~ Forall is_byte (slice [0x00; 0x03; 0x00; 0x23; 0x100; 0x00] 4 7)).
  { intros Hf. apply Forall_cons in Hf as [Hx _]. unfold is_byte in Hx. lia. }
  unfold Profile.decode.
  rewrite (parse_data_file_not_bytes Profile.file_type_value
             Profile.communication_mode_value
             Profile.FilePermissions Profile.FilePermissions_init
             Profile.FilePermissions_parse FileSettings_init
             [0x00; 0x03; 0x00; 0x23; 0x100; 0x00]
             0x00 0x03 MDFT_STANDARD_DATA_FILE ENCRYPTED _
             eq_refl eq_refl (or_introl eq_refl) eq_refl eq_refl eq_refl Hnb).
  reflexivity.
Defined.

Lemma parse_succeeds_iff_long_enough_witness :
  snd (Profile.decode [0x00; 0x03; 0x00; 0x23; 0x08; 0x00; 0x00]) = Ok tt
  <-> (7 <= length [0x00; 0x03; 0x00; 0x23; 0x08; 0x00; 0x00])%nat.
Proof.
  assert (Hb : Forall is_byte [0x00; 0x03; 0x00; 0x23; 0x08; 0x00; 0x00])
    by (repeat constructor; lia).
  exact (parse_succeeds_iff_long_enough Profile.file_type_value
           Profile.communication_mode_value
           Profile.FilePermissions Profile.FilePermissions_init
           Profile.FilePermissions_parse FileSettings_init
           [0x00; 0x03; 0x00; 0x23; 0x08; 0x00; 0x00]
           0x00 0x03 MDFT_STANDARD_DATA_FILE ENCRYPTED _ 7%nat
           Hb eq_refl eq_refl eq_refl eq_refl eq_refl eq_refl).
Defined.

Lemma parse_raises_only_witness :
  struct_error = IndexError
  \/ (exists cls v, struct_error = ValueError_not_a_valid cls v)
  \/ struct_error = ValueError_bytes_range
  \/ struct_error = struct_error
  \/ (exists d0, [0x00; 0x03; 0x00; 0x23; 0x08; 0x00] !! 0%nat = Some d0
                 /\ struct_error = NotImplementedError_Filetype d0)
  \/ (exists p,
        Profile.FilePermissions_parse Profile.FilePermissions_init
          (slice [0x00; 0x03; 0x00; 0x23; 0x08; 0x00] 2 4)
        = (p, Raise struct_error)).
Proof.
  exact (parse_raises_only Profile.file_type_value
           Profile.communication_mode_value
           Profile.FilePermissions Profile.FilePermissions_init
           Profile.FilePermissions_parse
           [0x00; 0x03; 0x00; 0x23; 0x08; 0x00] FileSettings_init _ _ eq_refl).
Defined.

Lemma repr_needs_header_witness :
  ProfileText.show (fst (Profile.decode [0x00; 0x02; 0x00; 0x23; 0x08; 0x00; 0x00]))
  = Raise (ForeignError "AttributeError").
Proof.
  apply (repr_needs_header Profile.file_type_value
           Profile.communication_mode_value ProfileText.file_type_name
           ProfileText.communication_mode_name
           Profile.FilePermissions Profile.FilePermissions_init
           Profile.FilePermissions_parse ProfileText.FilePermissions_repr
           [0x00; 0x02; 0x00; 0x23; 0x08; 0x00; 0x00]).
  intros (d0 & d1 & ft & cm & _ & _ & H1 & Hcm).
  injection H1 as <-. discriminate Hcm.
Defined.

Lemma repr_after_parse_witness :
  let eol := String "013"%char (String "010"%char EmptyString) in
  ProfileText.show
    (fst (Profile.decode [0x00; 0x03; 0x00; 0x23; 0x08; 0x00; 0x00]))
  = Ok (" ----- FileSettings ----" ++ eol
        ++ "File type: MDFT_STANDARD_DATA_FILE" ++ eol
        ++ "Encryption: ENCRYPTED" ++ eol
        ++ "Permissions: 2 3 0 0" ++ eol
        ++ "File size: 8" ++ eol)%string.
Proof.
  intros eol.
  destruct (repr_after_parse Profile.file_type_value
              Profile.communication_mode_value ProfileText.file_type_name
              ProfileText.communication_mode_name
              Profile.FilePermissions Profile.FilePermissions_init
              Profile.FilePermissions_parse ProfileText.FilePermissions_repr
              [0x00; 0x03; 0x00; 0x23; 0x08; 0x00; 0x00] FileSettings_init _
              eq_refl (fun p => ex_intro _ _ eq_refl))
    as (d0 & d1 & ft & cm & p & perms & rest & _ & _ & Hft & _ & _ & Hcm
        & _ & Hp & Hperms & Hshow & Hrest).
  injection Hft as <-. injection Hcm as <-. injection Hp as <-.
  injection Hperms as <-. simpl in Hrest. subst rest.
  exact Hshow.
Defined.

Lemma repr_after_parse_value_file_witness :
  let eol := String "013"%char (String "010"%char EmptyString) in
  ProfileText.show
    (fst (ProfileText.decode_into
            (FileSettings_new None None None 0 0 0 77 0 false 0 0)
            [0x02; 0x03; 0x00; 0x23; 1; 0; 0; 0; 2; 1; 0; 0; 3; 0; 0; 1; 0x01]))
  = Ok (" ----- FileSettings ----" ++ eol
        ++ "File type: MDFT_VALUE_FILE_WITH_BACKUP" ++ eol
        ++ "Encryption: ENCRYPTED" ++ eol
        ++ "Permissions: 2 3 0 0" ++ eol
        ++ "Lower limit: 1" ++ eol
        ++ "Upper limit: 258" ++ eol
        ++ "Initial value: 77" ++ eol
        ++ "Limited credit value: 16777219" ++ eol
        ++ "Limited credit enabled: True" ++ eol)%string.
Proof.
  assert (Hlen : (17 <= length
            [0x02; 0x03; 0x00; 0x23; 1; 0; 0; 0; 2; 1; 0; 0; 3; 0; 0; 1; 0x01])%nat)
    by (simpl; lia).
  assert (Hb : Forall is_byte
            [0x02; 0x03; 0x00; 0x23; 1; 0; 0; 0; 2; 1; 0; 0; 3; 0; 0; 1; 0x01])
    by (repeat constructor; lia).
  exact (repr_after_parse_value_file Profile.file_type_value
           Profile.communication_mode_value ProfileText.file_type_name
           ProfileText.communication_mode_name
           Profile.FilePermissions Profile.FilePermissions_init
           Profile.FilePermissions_parse ProfileText.FilePermissions_repr
           (FileSettings_new None None None 0 0 0 77 0 false 0 0)
           [0x02; 0x03; 0x00; 0x23; 1; 0; 0; 0; 2; 1; 0; 0; 3; 0; 0; 1; 0x01]
           0x02 0x03 0x01 ENCRYPTED _ _
           Hlen Hb eq_refl eq_refl eq_refl eq_refl eq_refl eq_refl eq_refl).
Defined.

Lemma repr_after_unsupported_witness :
  let eol := String "013"%char (String "010"%char EmptyString) in
  snd (Profile.decode [0x05; 0x01; 0x00; 0x23])
  = Raise (NotImplementedError_Filetype 0x05)
  /\ ProfileText.show (fst (Profile.decode [0x05; 0x01; 0x00; 0x23]))
     = Ok (" ----- FileSettings ----" ++ eol
           ++ "File type: MDFT_TRANSACTION_MAC_FILE" ++ eol
           ++ "Encryption: MAC" ++ eol
           ++ "Permissions: 2 3 0 0" ++ eol)%string.
Proof.
  exact (repr_after_unsupported Profile.file_type_value
           Profile.communication_mode_value ProfileText.file_type_name
           ProfileText.communication_mode_name
           Profile.FilePermissions Profile.FilePermissions_init
           Profile.FilePermissions_parse ProfileText.FilePermissions_repr
           FileSettings_init [0x05; 0x01; 0x00; 0x23] 0x05 0x01 MAC _ _
           eq_refl eq_refl eq_refl eq_refl eq_refl eq_refl).
Defined.
